(** * The preferences dialog (app/src/ui/preferences/preferences.tsx)

    A shallow embedding of the [Preferences] React component: its state and
    props, the constructor, the asynchronous load [componentWillMount], the
    field handlers, [onSave], and the two render functions that switch on the
    selected tab.

    The component talks to services that live in other modules: the global
    git configuration, the dispatcher, the [onDismissed] callback, editor and
    shell discovery.  They are modelled as a [World]: a finite map for the
    global configuration, the values discovery returns, and the sequence of
    calls the component has made, in program order.  Every awaited call is
    taken to complete, as the services' contract has it. *)

From Stdlib Require Import ZArith List Bool Ascii String.
From stdpp Require Import base option strings list gmap fin_maps.

Local Open Scope string_scope.
Local Open Scope list_scope.
Local Open Scope Z_scope.

(** ** JavaScript values *)

(** A value of type [string | null]: the truthy ones are the non-empty strings. *)
Definition truthy (v : option string) : bool :=
  match v with
  | Some (String _ _) => true
  | Some EmptyString => false
  | None => false
  end.

(** [v || d] at type [string | null] with a string on the right. *)
Definition orString (v : option string) (d : string) : string :=
  match v with
  | Some (String c r) => String c r
  | Some EmptyString => d
  | None => d
  end.

(** [a || b] on two object references: objects are truthy, [null] is not. *)
Definition orObject {A : Type} (a b : option A) : option A :=
  match a with
  | Some x => Some x
  | None => b
  end.

(** [v != null]. *)
Definition notNull {A : Type} (v : option A) : bool :=
  match v with
  | Some _ => true
  | None => false
  end.

(** ** Models used by the component *)

(** Modelled from the spec: the [PreferencesTab] enumeration
    (models/preferences is not among the sources).  Its five members are
    numbered in the order of the tab bar's children in [render], the index
    that [onTabClicked] receives and stores in [selectedIndex]. *)
Module PreferencesTab.
Definition t : Type := Z.
Definition Accounts : t := 0.
Definition Integrations : t := 1.
Definition Git : t := 2.
Definition Appearance : t := 3.
Definition Advanced : t := 4.

Definition all : list t := [Accounts; Integrations; Git; Appearance; Advanced].
End PreferencesTab.

(** Modelled from the spec: an e-mail address of an account, as
    [lookupPreferredEmail] returns it (lib/email is not among the sources). *)
Module IAPIEmail.
Record t : Type := mk { email : string; verified : bool }.
End IAPIEmail.

(** Modelled from the spec: a signed-in account exposes its login and its
    e-mail addresses (models/account is not among the sources). *)
Module Account.
Record t : Type := mk { login : string; emails : list IAPIEmail.t }.
End Account.

(** [IMergeTool] of lib/git/config: [onMergeToolNameChanged] builds one whose
    command is [this.state.mergeTool && this.state.mergeTool.command], so the
    command is a [string | null]. *)
Module IMergeTool.
Record t : Type := mk { name : string; command : option string }.
End IMergeTool.

(** What editor and shell discovery return: [componentWillMount] keeps the
    [editor] and the [shell] of each entry. *)
Module FoundEditor.
Record t (ExternalEditor : Type) : Type := mk { editor : ExternalEditor; path : string }.
Arguments mk {_} _ _.
Arguments editor {_} _.
Arguments path {_} _.
End FoundEditor.

Module FoundShell.
Record t (Shell : Type) : Type := mk { shell : Shell; path : string }.
Arguments mk {_} _ _.
Arguments shell {_} _.
Arguments path {_} _.
End FoundShell.

(** [IPreferencesProps].  The [dispatcher] and [onDismissed] props are the
    sinks of the calls recorded in the [World]; the data props are here. *)
Module Props.
Record t (ExternalEditor Shell ApplicationTheme StrategyKind : Type) : Type := mk {
    dotComAccount : option Account.t;
    enterpriseAccount : option Account.t;
    optOutOfUsageTracking : bool;
    initialSelectedTab : option PreferencesTab.t;
    confirmRepositoryRemoval : bool;
    confirmDiscardChanges : bool;
    confirmForcePush : bool;
    uncommittedChangesStrategyKind : StrategyKind;
    selectedExternalEditor : option ExternalEditor;
    selectedShell : Shell;
    selectedTheme : ApplicationTheme;
    automaticallySwitchTheme : bool;
  }.
Arguments mk {_ _ _ _}.
Arguments dotComAccount {_ _ _ _} _.
Arguments enterpriseAccount {_ _ _ _} _.
Arguments optOutOfUsageTracking {_ _ _ _} _.
Arguments initialSelectedTab {_ _ _ _} _.
Arguments confirmRepositoryRemoval {_ _ _ _} _.
Arguments confirmDiscardChanges {_ _ _ _} _.
Arguments confirmForcePush {_ _ _ _} _.
Arguments uncommittedChangesStrategyKind {_ _ _ _} _.
Arguments selectedExternalEditor {_ _ _ _} _.
Arguments selectedShell {_ _ _ _} _.
Arguments selectedTheme {_ _ _ _} _.
Arguments automaticallySwitchTheme {_ _ _ _} _.
End Props.

(** [IPreferencesState]. *)
Record IPreferencesState (ExternalEditor Shell StrategyKind : Type) : Type := mkState {
  selectedIndex : PreferencesTab.t;
  committerName : string;
  committerEmail : string;
  disallowedCharactersMessage : option string;
  optOutOfUsageTracking : bool;
  confirmRepositoryRemoval : bool;
  confirmDiscardChanges : bool;
  confirmForcePush : bool;
  automaticallySwitchTheme : bool;
  uncommittedChangesStrategyKind : StrategyKind;
  availableEditors : list ExternalEditor;
  selectedExternalEditor : option ExternalEditor;
  availableShells : list Shell;
  selectedShell : Shell;
  mergeTool : option IMergeTool.t;
}.
Arguments mkState {_ _ _}.
Arguments selectedIndex {_ _ _} _.
Arguments committerName {_ _ _} _.
Arguments committerEmail {_ _ _} _.
Arguments disallowedCharactersMessage {_ _ _} _.
Arguments optOutOfUsageTracking {_ _ _} _.
Arguments confirmRepositoryRemoval {_ _ _} _.
Arguments confirmDiscardChanges {_ _ _} _.
Arguments confirmForcePush {_ _ _} _.
Arguments automaticallySwitchTheme {_ _ _} _.
Arguments uncommittedChangesStrategyKind {_ _ _} _.
Arguments availableEditors {_ _ _} _.
Arguments selectedExternalEditor {_ _ _} _.
Arguments availableShells {_ _ _} _.
Arguments selectedShell {_ _ _} _.
Arguments mergeTool {_ _ _} _.

(** One entry of the object literal passed to [this.setState]: a field of the
    state and its new value.  No handler updates [automaticallySwitchTheme]. *)
Inductive Update (ExternalEditor Shell StrategyKind : Type) : Type :=
| SelectedIndex (v : PreferencesTab.t)
| CommitterName (v : string)
| CommitterEmail (v : string)
| DisallowedCharactersMessage (v : option string)
| OptOutOfUsageTracking (v : bool)
| ConfirmRepositoryRemoval (v : bool)
| ConfirmDiscardChanges (v : bool)
| ConfirmForcePush (v : bool)
| UncommittedChangesStrategyKind (v : StrategyKind)
| AvailableEditors (v : list ExternalEditor)
| SelectedExternalEditor (v : option ExternalEditor)
| AvailableShells (v : list Shell)
| SelectedShell (v : Shell)
| MergeTool (v : option IMergeTool.t).
Arguments SelectedIndex {_ _ _} v.
Arguments CommitterName {_ _ _} v.
Arguments CommitterEmail {_ _ _} v.
Arguments DisallowedCharactersMessage {_ _ _} v.
Arguments OptOutOfUsageTracking {_ _ _} v.
Arguments ConfirmRepositoryRemoval {_ _ _} v.
Arguments ConfirmDiscardChanges {_ _ _} v.
Arguments ConfirmForcePush {_ _ _} v.
Arguments UncommittedChangesStrategyKind {_ _ _} v.
Arguments AvailableEditors {_ _ _} v.
Arguments SelectedExternalEditor {_ _ _} v.
Arguments AvailableShells {_ _ _} v.
Arguments SelectedShell {_ _ _} v.
Arguments MergeTool {_ _ _} v.

(** React merges the object into the current state: the fields named are
    replaced, the others are kept. *)
Definition assign {ExternalEditor Shell StrategyKind : Type}
    (s : IPreferencesState ExternalEditor Shell StrategyKind)
    (u : Update ExternalEditor Shell StrategyKind)
    : IPreferencesState ExternalEditor Shell StrategyKind :=
  match u with
  | SelectedIndex v =>
      mkState v (committerName s) (committerEmail s) (disallowedCharactersMessage s) (optOutOfUsageTracking s) (confirmRepositoryRemoval s) (confirmDiscardChanges s) (confirmForcePush s) (automaticallySwitchTheme s) (uncommittedChangesStrategyKind s) (availableEditors s) (selectedExternalEditor s) (availableShells s) (selectedShell s) (mergeTool s)
  | CommitterName v =>
      mkState (selectedIndex s) v (committerEmail s) (disallowedCharactersMessage s) (optOutOfUsageTracking s) (confirmRepositoryRemoval s) (confirmDiscardChanges s) (confirmForcePush s) (automaticallySwitchTheme s) (uncommittedChangesStrategyKind s) (availableEditors s) (selectedExternalEditor s) (availableShells s) (selectedShell s) (mergeTool s)
  | CommitterEmail v =>
      mkState (selectedIndex s) (committerName s) v (disallowedCharactersMessage s) (optOutOfUsageTracking s) (confirmRepositoryRemoval s) (confirmDiscardChanges s) (confirmForcePush s) (automaticallySwitchTheme s) (uncommittedChangesStrategyKind s) (availableEditors s) (selectedExternalEditor s) (availableShells s) (selectedShell s) (mergeTool s)
  | DisallowedCharactersMessage v =>
      mkState (selectedIndex s) (committerName s) (committerEmail s) v (optOutOfUsageTracking s) (confirmRepositoryRemoval s) (confirmDiscardChanges s) (confirmForcePush s) (automaticallySwitchTheme s) (uncommittedChangesStrategyKind s) (availableEditors s) (selectedExternalEditor s) (availableShells s) (selectedShell s) (mergeTool s)
  | OptOutOfUsageTracking v =>
      mkState (selectedIndex s) (committerName s) (committerEmail s) (disallowedCharactersMessage s) v (confirmRepositoryRemoval s) (confirmDiscardChanges s) (confirmForcePush s) (automaticallySwitchTheme s) (uncommittedChangesStrategyKind s) (availableEditors s) (selectedExternalEditor s) (availableShells s) (selectedShell s) (mergeTool s)
  | ConfirmRepositoryRemoval v =>
      mkState (selectedIndex s) (committerName s) (committerEmail s) (disallowedCharactersMessage s) (optOutOfUsageTracking s) v (confirmDiscardChanges s) (confirmForcePush s) (automaticallySwitchTheme s) (uncommittedChangesStrategyKind s) (availableEditors s) (selectedExternalEditor s) (availableShells s) (selectedShell s) (mergeTool s)
  | ConfirmDiscardChanges v =>
      mkState (selectedIndex s) (committerName s) (committerEmail s) (disallowedCharactersMessage s) (optOutOfUsageTracking s) (confirmRepositoryRemoval s) v (confirmForcePush s) (automaticallySwitchTheme s) (uncommittedChangesStrategyKind s) (availableEditors s) (selectedExternalEditor s) (availableShells s) (selectedShell s) (mergeTool s)
  | ConfirmForcePush v =>
      mkState (selectedIndex s) (committerName s) (committerEmail s) (disallowedCharactersMessage s) (optOutOfUsageTracking s) (confirmRepositoryRemoval s) (confirmDiscardChanges s) v (automaticallySwitchTheme s) (uncommittedChangesStrategyKind s) (availableEditors s) (selectedExternalEditor s) (availableShells s) (selectedShell s) (mergeTool s)
  | UncommittedChangesStrategyKind v =>
      mkState (selectedIndex s) (committerName s) (committerEmail s) (disallowedCharactersMessage s) (optOutOfUsageTracking s) (confirmRepositoryRemoval s) (confirmDiscardChanges s) (confirmForcePush s) (automaticallySwitchTheme s) v (availableEditors s) (selectedExternalEditor s) (availableShells s) (selectedShell s) (mergeTool s)
  | AvailableEditors v =>
      mkState (selectedIndex s) (committerName s) (committerEmail s) (disallowedCharactersMessage s) (optOutOfUsageTracking s) (confirmRepositoryRemoval s) (confirmDiscardChanges s) (confirmForcePush s) (automaticallySwitchTheme s) (uncommittedChangesStrategyKind s) v (selectedExternalEditor s) (availableShells s) (selectedShell s) (mergeTool s)
  | SelectedExternalEditor v =>
      mkState (selectedIndex s) (committerName s) (committerEmail s) (disallowedCharactersMessage s) (optOutOfUsageTracking s) (confirmRepositoryRemoval s) (confirmDiscardChanges s) (confirmForcePush s) (automaticallySwitchTheme s) (uncommittedChangesStrategyKind s) (availableEditors s) v (availableShells s) (selectedShell s) (mergeTool s)
  | AvailableShells v =>
      mkState (selectedIndex s) (committerName s) (committerEmail s) (disallowedCharactersMessage s) (optOutOfUsageTracking s) (confirmRepositoryRemoval s) (confirmDiscardChanges s) (confirmForcePush s) (automaticallySwitchTheme s) (uncommittedChangesStrategyKind s) (availableEditors s) (selectedExternalEditor s) v (selectedShell s) (mergeTool s)
  | SelectedShell v =>
      mkState (selectedIndex s) (committerName s) (committerEmail s) (disallowedCharactersMessage s) (optOutOfUsageTracking s) (confirmRepositoryRemoval s) (confirmDiscardChanges s) (confirmForcePush s) (automaticallySwitchTheme s) (uncommittedChangesStrategyKind s) (availableEditors s) (selectedExternalEditor s) (availableShells s) v (mergeTool s)
  | MergeTool v =>
      mkState (selectedIndex s) (committerName s) (committerEmail s) (disallowedCharactersMessage s) (optOutOfUsageTracking s) (confirmRepositoryRemoval s) (confirmDiscardChanges s) (confirmForcePush s) (automaticallySwitchTheme s) (uncommittedChangesStrategyKind s) (availableEditors s) (selectedExternalEditor s) (availableShells s) (selectedShell s) v
  end.

(** ** Rendering results *)

(** [assertNever] throws: the render function does not return. *)
Inductive FatalError : Type :=
| UnknownTabIndex (index : Z).

Inductive Rendered (A : Type) : Type :=
| Threw (error : FatalError)
| Returned (element : A).
Arguments Threw {A} error.
Arguments Returned {A} element.

(** Modelled from the spec: [assertNever] (lib/fatal-error is not among the
    sources) fails fatally; here with the tab index of its message
    [`Unknown tab index: ${index}`]. *)
Definition assertNever {A : Type} (index : Z) : Rendered A :=
  Threw (UnknownTabIndex index).

(** ** The rule of ui/preferences/identifier-rules *)

Module IdentifierRules.
Section Rule.

(** The characters git disallows in author names, and the whitespace ones. *)
Variable disallowed : ascii -> bool.
Variable whitespace : ascii -> bool.
(** The spec classifies the non-empty names only. *)
Variable emptyNameIsValid : bool.

(** Every character of the string is one of the set. *)
Fixpoint consistsOnlyOf (set : ascii -> bool) (value : string) : bool :=
  match value with
  | EmptyString => true
  | String c rest => set c && consistsOnlyOf set rest
  end.

(** Modelled from the spec: [gitAuthorNameIsValid] (identifier-rules is not
    among the sources).  A name composed entirely of disallowed characters, or
    of whitespace only, is invalid; any other non-empty name is valid. *)
Definition gitAuthorNameIsValid (value : string) : bool :=
  match value with
  | EmptyString => emptyNameIsValid
  | String _ _ =>
      negb (consistsOnlyOf disallowed value || consistsOnlyOf whitespace value)
  end.

End Rule.
End IdentifierRules.

(** ** The component *)

Section Preferences.

Set Default Proof Using "Type".

(** The enumerations of lib/editors, lib/shells, ui/lib/application-theme and
    models/uncommitted-changes-strategy.  A member of any of them is a value
    that a JavaScript condition takes as true. *)
Context {ExternalEditor Shell ApplicationTheme StrategyKind : Type}.

(** [uncommittedChangesStrategyKindDefault] of models/uncommitted-changes-strategy. *)
Variable uncommittedChangesStrategyKindDefault : StrategyKind.
(** [lookupPreferredEmail] of lib/email. *)
Variable lookupPreferredEmail : Account.t -> option IAPIEmail.t.
(** [gitAuthorNameIsValid] of ./identifier-rules. *)
Variable gitAuthorNameIsValid : string -> bool.
(** The build-time constant [__DARWIN__]. *)
Variable __DARWIN__ : bool.

Local Abbreviation State := (IPreferencesState ExternalEditor Shell StrategyKind).
Local Abbreviation Props := (Props.t ExternalEditor Shell ApplicationTheme StrategyKind).

(** A call that leaves the component: a write to the global git
    configuration, a method of the dispatcher, or the [onDismissed] prop. *)
Inductive Call : Type :=
| SetGlobalConfigValue (key value : string)
| SetStatsOptOut (optOut userViewedPrompt : bool)
| SetConfirmRepoRemovalSetting (value : bool)
| SetConfirmForcePushSetting (value : bool)
| SetExternalEditor (editor : ExternalEditor)
| SetShell (shell : Shell)
| SetConfirmDiscardChangesSetting (value : bool)
| SetUncommittedChangesStrategyKindSetting (value : StrategyKind)
| SetSelectedTheme (theme : ApplicationTheme)
| OnAutomaticallySwitchThemeChanged (value : bool)
| ShowDotComSignInDialog
| ShowEnterpriseSignInDialog
| RemoveAccount (account : Account.t)
| OnDismissed.

(** What lies outside the component. *)
Record World : Type := mkWorld {
  globalConfig : gmap string string;
  installedEditors : list (FoundEditor.t ExternalEditor);
  installedShells : list (FoundShell.t Shell);
  configuredMergeTool : option IMergeTool.t;
  calls : list Call;
}.

(** The component instance ([this.state]) in its world. *)
Record Component : Type := mkComponent {
  state : State;
  world : World;
}.

(** A method of the component: it reads and updates [this.state] and the
    world, and returns a value. *)
Definition Async (A : Type) : Type := Component -> A * Component.

#[local] Instance Async_ret : MRet Async := fun A a c => (a, c).
#[local] Instance Async_bind : MBind Async :=
  fun A B k m c => let '(a, c') := m c in k a c'.

Definition exec {A : Type} (m : Async A) (c : Component) : Component := snd (m c).

(** [this.state], read by a statement. *)
Definition withState {A : Type} (k : State -> Async A) : Async A :=
  fun c => k (state c) c.

(** [this.setState({ ... })]. *)
Definition setState (updates : list (Update ExternalEditor Shell StrategyKind)) : Async unit :=
  fun c => (tt, mkComponent (fold_left assign updates (state c)) (world c)).

Definition perform (call : Call) : Async unit :=
  fun c =>
    let w := world c in
    (tt, mkComponent (state c)
           (mkWorld (globalConfig w) (installedEditors w) (installedShells w)
                    (configuredMergeTool w) (calls w ++ [call]))).

(** [getGlobalConfigValue(key)]: the value, or [null]. *)
Definition getGlobalConfigValue (key : string) : Async (option string) :=
  fun c => (globalConfig (world c) !! key, c).

(** [setGlobalConfigValue(key, value)]. *)
Definition setGlobalConfigValue (key value : string) : Async unit :=
  fun c =>
    let w := world c in
    (tt, mkComponent (state c)
           (mkWorld (<[key := value]> (globalConfig w)) (installedEditors w)
                    (installedShells w) (configuredMergeTool w)
                    (calls w ++ [SetGlobalConfigValue key value]))).

Definition getAvailableEditors : Async (list (FoundEditor.t ExternalEditor)) :=
  fun c => (installedEditors (world c), c).

Definition getAvailableShells : Async (list (FoundShell.t Shell)) :=
  fun c => (installedShells (world c), c).

Definition getMergeTool : Async (option IMergeTool.t) :=
  fun c => (configuredMergeTool (world c), c).

(** [if (v) { ... v ... }] on a [string | null]: the body runs on a truthy
    value, which is then a non-empty string. *)
Definition ifTruthy (v : option string) (body : string -> Async unit) : Async unit :=
  match v with
  | Some (String c r) => body (String c r)
  | Some EmptyString => mret tt
  | None => mret tt
  end.

(** [initialSelectedTab || PreferencesTab.Accounts]: a missing tab and the
    number 0 are falsy. *)
Definition orTab (v : option PreferencesTab.t) (d : PreferencesTab.t) : PreferencesTab.t :=
  match v with
  | Some i => if i =? 0 then d else i
  | None => d
  end.

Definition constructor (props : Props) : State :=
  {| selectedIndex := orTab (Props.initialSelectedTab props) PreferencesTab.Accounts;
     committerName := "";
     committerEmail := "";
     disallowedCharactersMessage := None;
     availableEditors := [];
     optOutOfUsageTracking := false;
     confirmRepositoryRemoval := false;
     confirmDiscardChanges := false;
     confirmForcePush := false;
     uncommittedChangesStrategyKind := uncommittedChangesStrategyKindDefault;
     automaticallySwitchTheme := false;
     selectedExternalEditor := Props.selectedExternalEditor props;
     availableShells := [];
     selectedShell := Props.selectedShell props;
     mergeTool := None |}.

Definition componentWillMount (props : Props) : Async unit :=
  committerName ← getGlobalConfigValue "user.name";
  committerEmail ← getGlobalConfigValue "user.email";
  let '(committerName, committerEmail) :=
    if negb (truthy committerName) || negb (truthy committerEmail) then
      let account := orObject (Props.dotComAccount props) (Props.enterpriseAccount props) in
      match account with
      | Some account =>
          let committerName :=
            if negb (truthy committerName) then Some (Account.login account)
            else committerName in
          let committerEmail :=
            if negb (truthy committerEmail) then
              match lookupPreferredEmail account with
              | Some found => Some (IAPIEmail.email found)
              | None => committerEmail
              end
            else committerEmail in
          (committerName, committerEmail)
      | None => (committerName, committerEmail)
      end
    else (committerName, committerEmail) in
  let committerName := orString committerName "" in
  let committerEmail := orString committerEmail "" in
  editors ← getAvailableEditors;
  shells ← getAvailableShells;
  mergeTool ← getMergeTool;
  let availableEditors := map FoundEditor.editor editors in
  let availableShells := map FoundShell.shell shells in
  setState [
    CommitterName committerName;
    CommitterEmail committerEmail;
    OptOutOfUsageTracking (Props.optOutOfUsageTracking props);
    ConfirmRepositoryRemoval (Props.confirmRepositoryRemoval props);
    ConfirmDiscardChanges (Props.confirmDiscardChanges props);
    ConfirmForcePush (Props.confirmForcePush props);
    UncommittedChangesStrategyKind (Props.uncommittedChangesStrategyKind props);
    AvailableShells availableShells;
    AvailableEditors availableEditors;
    MergeTool mergeTool
  ].

(** *** Handlers *)

Definition onDotComSignIn : Async unit :=
  perform OnDismissed;;
  perform ShowDotComSignInDialog.

Definition onEnterpriseSignIn : Async unit :=
  perform OnDismissed;;
  perform ShowEnterpriseSignInDialog.

Definition onLogout (account : Account.t) : Async unit :=
  perform (RemoveAccount account).

Definition onOptOutofReportingChanged (value : bool) : Async unit :=
  setState [OptOutOfUsageTracking value].

Definition onConfirmRepositoryRemovalChanged (value : bool) : Async unit :=
  setState [ConfirmRepositoryRemoval value].

Definition onConfirmDiscardChangesChanged (value : bool) : Async unit :=
  setState [ConfirmDiscardChanges value].

Definition onConfirmForcePushChanged (value : bool) : Async unit :=
  setState [ConfirmForcePush value].

Definition onUncommittedChangesStrategyKindChanged (value : StrategyKind) : Async unit :=
  setState [UncommittedChangesStrategyKind value].

Definition invalidNameMessage : string :=
  "Name is invalid, it consists only of disallowed characters.".

Definition onCommitterNameChanged (committerName : string) : Async unit :=
  setState [
    CommitterName committerName;
    DisallowedCharactersMessage
      (if gitAuthorNameIsValid committerName then None else Some invalidNameMessage)
  ].

Definition onCommitterEmailChanged (committerEmail : string) : Async unit :=
  setState [CommitterEmail committerEmail].

Definition onSelectedEditorChanged (editor : ExternalEditor) : Async unit :=
  setState [SelectedExternalEditor (Some editor)].

Definition onSelectedShellChanged (shell : Shell) : Async unit :=
  setState [SelectedShell shell].

Definition onSelectedThemeChanged (theme : ApplicationTheme) : Async unit :=
  perform (SetSelectedTheme theme).

Definition onAutomaticallySwitchThemeChanged (automaticallySwitchTheme : bool) : Async unit :=
  perform (OnAutomaticallySwitchThemeChanged automaticallySwitchTheme).

(** [`mergetool.${name}.cmd`] *)
Definition mergeToolCommandKey (name : string) : string :=
  "mergetool." +:+ name +:+ ".cmd".

Definition onSave : Async unit :=
  withState (fun s => setGlobalConfigValue "user.name" (committerName s));;
  withState (fun s => setGlobalConfigValue "user.email" (committerEmail s));;
  withState (fun s => perform (SetStatsOptOut (optOutOfUsageTracking s) false));;
  withState (fun s => perform (SetConfirmRepoRemovalSetting (confirmRepositoryRemoval s)));;
  withState (fun s => perform (SetConfirmForcePushSetting (confirmForcePush s)));;
  withState (fun s =>
    match selectedExternalEditor s with
    | Some editor => perform (SetExternalEditor editor)
    | None => mret tt
    end);;
  withState (fun s => perform (SetShell (selectedShell s)));;
  withState (fun s => perform (SetConfirmDiscardChangesSetting (confirmDiscardChanges s)));;
  withState (fun s =>
    perform (SetUncommittedChangesStrategyKindSetting (uncommittedChangesStrategyKind s)));;
  withState (fun s =>
    let mergeTool := mergeTool s in
    match mergeTool with
    | Some mergeTool =>
        ifTruthy (Some (IMergeTool.name mergeTool)) (fun name =>
          setGlobalConfigValue "merge.tool" name;;
          ifTruthy (IMergeTool.command mergeTool) (fun command =>
            setGlobalConfigValue (mergeToolCommandKey name) command))
    | None => mret tt
    end);;
  perform OnDismissed.

Definition onTabClicked (index : Z) : Async unit :=
  setState [SelectedIndex index].

Definition onMergeToolNameChanged (name : string) : Async unit :=
  withState (fun s =>
    let mergeTool :=
      {| IMergeTool.name := name;
         IMergeTool.command :=
           match mergeTool s with
           | Some current => IMergeTool.command current
           | None => None
           end |} in
    setState [MergeTool (Some mergeTool)]).

Definition onMergeToolCommandChanged (command : string) : Async unit :=
  withState (fun s =>
    let mergeTool :=
      {| IMergeTool.name :=
           match mergeTool s with
           | Some current => IMergeTool.name current
           | None => ""
           end;
         IMergeTool.command := Some command |} in
    setState [MergeTool (Some mergeTool)]).

(** *** Rendering *)

(** The element a tab renders, with its data props. *)
Inductive TabView : Type :=
| AccountsView (dotComAccount enterpriseAccount : option Account.t)
| IntegrationsView
    (availableEditors : list ExternalEditor)
    (selectedExternalEditor : option ExternalEditor)
    (availableShells : list Shell)
    (selectedShell : Shell)
    (mergeTool : option IMergeTool.t)
| GitView (name email : string)
| AppearanceView (selectedTheme : ApplicationTheme) (automaticallySwitchTheme : bool)
| AdvancedView
    (optOutOfUsageTracking confirmRepositoryRemoval confirmDiscardChanges
       confirmForcePush : bool)
    (uncommittedChangesStrategyKind : StrategyKind).

(** [<DialogFooter><OkCancelButtonGroup ... /></DialogFooter>] *)
Record Footer : Type := mkFooter {
  okButtonText : string;
  okButtonDisabled : bool;
}.

Record Dialog : Type := mkDialog {
  dialogId : string;
  dialogTitle : string;
  dialogError : option string;
  tabBarSelectedIndex : PreferencesTab.t;
  tabBarLabels : list string;
  dialogContent : TabView;
  dialogFooter : option Footer;
}.

(** The [DialogError] banner, or nothing. *)
Definition renderDisallowedCharactersError (s : State) : option string :=
  let message := disallowedCharactersMessage s in
  if notNull message then message else None.

Definition renderActiveTab (props : Props) (s : State) : Rendered TabView :=
  let index := selectedIndex s in
  if index =? PreferencesTab.Accounts then
    Returned (AccountsView (Props.dotComAccount props) (Props.enterpriseAccount props))
  else if index =? PreferencesTab.Integrations then
    Returned (IntegrationsView (availableEditors s) (selectedExternalEditor s)
                (availableShells s) (selectedShell s) (mergeTool s))
  else if index =? PreferencesTab.Git then
    Returned (GitView (committerName s) (committerEmail s))
  else if index =? PreferencesTab.Appearance then
    Returned (AppearanceView (Props.selectedTheme props)
                (Props.automaticallySwitchTheme props))
  else if index =? PreferencesTab.Advanced then
    Returned (AdvancedView (optOutOfUsageTracking s) (confirmRepositoryRemoval s)
                (confirmDiscardChanges s) (confirmForcePush s)
                (uncommittedChangesStrategyKind s))
  else assertNever index.

Definition renderFooter (s : State) : Rendered (option Footer) :=
  let hasDisabledError := notNull (disallowedCharactersMessage s) in
  let index := selectedIndex s in
  if (index =? PreferencesTab.Accounts) || (index =? PreferencesTab.Appearance) then
    Returned None
  else if (index =? PreferencesTab.Integrations) || (index =? PreferencesTab.Advanced)
          || (index =? PreferencesTab.Git) then
    Returned (Some {| okButtonText := "Save"; okButtonDisabled := hasDisabledError |})
  else assertNever index.

Definition render (props : Props) (s : State) : Rendered Dialog :=
  let error := renderDisallowedCharactersError s in
  match renderActiveTab props s with
  | Threw e => Threw e
  | Returned content =>
      match renderFooter s with
      | Threw e => Threw e
      | Returned footer =>
          Returned {|
            dialogId := "preferences";
            dialogTitle := if __DARWIN__ then "Preferences" else "Options";
            dialogError := error;
            tabBarSelectedIndex := selectedIndex s;
            tabBarLabels := ["Accounts"; "Integrations"; "Git"; "Appearance"; "Advanced"];
            dialogContent := content;
            dialogFooter := footer |}
      end
  end.

(** *** A dialog session *)

(** What happens to a dialog once constructed: the load completes, or the
    user triggers one of the handlers.  The load is taken where it completes:
    it reads the world and commits its [setState] there. *)
Inductive Event : Type :=
| Loaded
| DotComSignIn
| EnterpriseSignIn
| Logout (account : Account.t)
| TabClicked (index : Z)
| OptOutofReportingChanged (value : bool)
| ConfirmRepositoryRemovalChanged (value : bool)
| ConfirmDiscardChangesChanged (value : bool)
| ConfirmForcePushChanged (value : bool)
| UncommittedChangesStrategyKindChanged (value : StrategyKind)
| CommitterNameChanged (committerName : string)
| CommitterEmailChanged (committerEmail : string)
| SelectedEditorChanged (editor : ExternalEditor)
| SelectedShellChanged (shell : Shell)
| SelectedThemeChanged (theme : ApplicationTheme)
| AutomaticallySwitchThemeChanged (value : bool)
| MergeToolNameChanged (name : string)
| MergeToolCommandChanged (command : string)
| Save.

Definition handle (props : Props) (e : Event) : Async unit :=
  match e with
  | Loaded => componentWillMount props
  | DotComSignIn => onDotComSignIn
  | EnterpriseSignIn => onEnterpriseSignIn
  | Logout account => onLogout account
  | TabClicked index => onTabClicked index
  | OptOutofReportingChanged value => onOptOutofReportingChanged value
  | ConfirmRepositoryRemovalChanged value => onConfirmRepositoryRemovalChanged value
  | ConfirmDiscardChangesChanged value => onConfirmDiscardChangesChanged value
  | ConfirmForcePushChanged value => onConfirmForcePushChanged value
  | UncommittedChangesStrategyKindChanged value =>
      onUncommittedChangesStrategyKindChanged value
  | CommitterNameChanged committerName => onCommitterNameChanged committerName
  | CommitterEmailChanged committerEmail => onCommitterEmailChanged committerEmail
  | SelectedEditorChanged editor => onSelectedEditorChanged editor
  | SelectedShellChanged shell => onSelectedShellChanged shell
  | SelectedThemeChanged theme => onSelectedThemeChanged theme
  | AutomaticallySwitchThemeChanged value => onAutomaticallySwitchThemeChanged value
  | MergeToolNameChanged name => onMergeToolNameChanged name
  | MergeToolCommandChanged command => onMergeToolCommandChanged command
  | Save => onSave
  end.

(** The component after the events, in order. *)
Definition after (props : Props) (events : list Event) (c : Component) : Component :=
  fold_left (fun c e => exec (handle props e) c) events c.

(** The dialog as it opens in a world. *)
Definition opened (props : Props) (w : World) : Component :=
  mkComponent (constructor props) w.

(** *** What a method did *)

(** The calls a method makes when run on [c]: those after the ones already made. *)
Definition callsOf {A : Type} (m : Async A) (c : Component) : list Call :=
  drop (length (calls (world c))) (calls (world (exec m c))).

(** The writes to the global git configuration among the calls. *)
Definition configWrite (call : Call) : option (string * string) :=
  match call with
  | SetGlobalConfigValue key value => Some (key, value)
  | _ => None
  end.

Definition configWrites (cs : list Call) : list (string * string) :=
  omap configWrite cs.

Definition keysWritten (cs : list Call) : list string :=
  (configWrites cs).*1.

(** ** Properties *)

(** Run the statements of a method: unfold the methods, the monad and the
    projections, and leave the configuration map and the lists as they are. *)
Ltac run :=
  cbv beta iota zeta delta
    [exec callsOf handle
     onSave onTabClicked onMergeToolNameChanged onMergeToolCommandChanged
     onCommitterNameChanged onCommitterEmailChanged onSelectedEditorChanged
     onSelectedShellChanged onSelectedThemeChanged onAutomaticallySwitchThemeChanged
     onOptOutofReportingChanged onConfirmRepositoryRemovalChanged
     onConfirmDiscardChangesChanged onConfirmForcePushChanged
     onUncommittedChangesStrategyKindChanged onDotComSignIn onEnterpriseSignIn onLogout
     componentWillMount
     withState setState perform getGlobalConfigValue setGlobalConfigValue
     getAvailableEditors getAvailableShells getMergeTool ifTruthy
     mbind mret Async_bind Async_ret fst snd fold_left assign
     state world calls globalConfig installedEditors installedShells configuredMergeTool
     selectedIndex committerName committerEmail disallowedCharactersMessage
     optOutOfUsageTracking confirmRepositoryRemoval confirmDiscardChanges
     confirmForcePush automaticallySwitchTheme uncommittedChangesStrategyKind
     availableEditors selectedExternalEditor availableShells selectedShell mergeTool
     IMergeTool.name IMergeTool.command].

(** *** Tab switching *)

(** C8: for every tab index and every component, the tab-click handler sets
    [selectedIndex] to the index clicked and nothing else: every other field
    of the state keeps its value, the world (the configuration and the calls
    made) is unchanged, and the message of an invalid committer name neither
    blocks the switch nor is cleared by it. *)
Theorem onTabClicked_only_selects (index : Z) (c : Component) :
  let c' := exec (onTabClicked index) c in
  let s := state c in
  let s' := state c' in
  selectedIndex s' = index
  /\ committerName s' = committerName s
  /\ committerEmail s' = committerEmail s
  /\ disallowedCharactersMessage s' = disallowedCharactersMessage s
  /\ optOutOfUsageTracking s' = optOutOfUsageTracking s
  /\ confirmRepositoryRemoval s' = confirmRepositoryRemoval s
  /\ confirmDiscardChanges s' = confirmDiscardChanges s
  /\ confirmForcePush s' = confirmForcePush s
  /\ automaticallySwitchTheme s' = automaticallySwitchTheme s
  /\ uncommittedChangesStrategyKind s' = uncommittedChangesStrategyKind s
  /\ availableEditors s' = availableEditors s
  /\ selectedExternalEditor s' = selectedExternalEditor s
  /\ availableShells s' = availableShells s
  /\ selectedShell s' = selectedShell s
  /\ mergeTool s' = mergeTool s
  /\ world c' = world c
  /\ callsOf (onTabClicked index) c = [].
Proof.
  destruct c as [s w]. run.
  repeat split. apply drop_all.
Qed.

(** *** Rendering *)

Lemma tab_in_enumeration (index : Z) :
  index ∈ PreferencesTab.all <->
  index = PreferencesTab.Accounts \/ index = PreferencesTab.Integrations
  \/ index = PreferencesTab.Git \/ index = PreferencesTab.Appearance
  \/ index = PreferencesTab.Advanced.
Proof.
  unfold PreferencesTab.all. rewrite !elem_of_cons, elem_of_nil. tauto.
Qed.

Lemma renderFooter_unknown (s : State) :
  selectedIndex s ∉ PreferencesTab.all ->
  renderFooter s = Threw (UnknownTabIndex (selectedIndex s)).
Proof.
  rewrite tab_in_enumeration. unfold renderFooter, assertNever. intros H.
  repeat match goal with
  | |- context [?a =? ?b] => destruct (Z.eqb_spec a b); [exfalso; tauto|]
  end.
  reflexivity.
Qed.

Lemma renderActiveTab_unknown (props : Props) (s : State) :
  selectedIndex s ∉ PreferencesTab.all ->
  renderActiveTab props s = Threw (UnknownTabIndex (selectedIndex s)).
Proof.
  rewrite tab_in_enumeration. unfold renderActiveTab, assertNever. intros H.
  repeat match goal with
  | |- context [?a =? ?b] => destruct (Z.eqb_spec a b); [exfalso; tauto|]
  end.
  reflexivity.
Qed.

(** C2: for every state, on the tabs Accounts and Appearance [renderFooter]
    returns no footer; on the tabs Integrations, Git and Advanced it returns a
    footer with a Save button, and that button is disabled if and only if
    [disallowedCharactersMessage] is not null. *)
Theorem renderFooter_by_tab (s : State) :
  (selectedIndex s = PreferencesTab.Accounts \/ selectedIndex s = PreferencesTab.Appearance ->
   renderFooter s = Returned None)
  /\ (selectedIndex s = PreferencesTab.Integrations \/ selectedIndex s = PreferencesTab.Git
      \/ selectedIndex s = PreferencesTab.Advanced ->
      exists footer,
        renderFooter s = Returned (Some footer)
        /\ okButtonText footer = "Save"
        /\ (okButtonDisabled footer = true <-> disallowedCharactersMessage s <> None)).
Proof.
  unfold renderFooter. split.
  - intros [-> | ->]; reflexivity.
  - intros H.
    exists {| okButtonText := "Save";
              okButtonDisabled := notNull (disallowedCharactersMessage s) |}.
    split; [destruct H as [-> | [-> | ->]]; reflexivity|].
    split; [reflexivity|]. cbn [okButtonDisabled].
    destruct (disallowedCharactersMessage s); cbn [notNull]; split; congruence.
Qed.

(** C7: when the selected index is none of the five tabs of the enumeration,
    [renderActiveTab] and [renderFooter] both end in [assertNever], and so
    does [render]; when it is one of the five, each of them returns an
    element and [assertNever] is not reached. *)
Theorem assertNever_reached_only_outside_enumeration (props : Props) (s : State) :
  (selectedIndex s ∉ PreferencesTab.all ->
   renderActiveTab props s = assertNever (selectedIndex s)
   /\ renderFooter s = assertNever (selectedIndex s)
   /\ render props s = Threw (UnknownTabIndex (selectedIndex s)))
  /\ (selectedIndex s ∈ PreferencesTab.all ->
      (exists view, renderActiveTab props s = Returned view)
      /\ (exists footer, renderFooter s = Returned footer)
      /\ (exists dialog, render props s = Returned dialog)).
Proof.
  split.
  - intros H. unfold render.
    rewrite (renderActiveTab_unknown props s H), (renderFooter_unknown s H).
    repeat split.
  - rewrite tab_in_enumeration. unfold render, renderActiveTab, renderFooter.
    intros [-> | [-> | [-> | [-> | ->]]]]; cbn; repeat split; eexists; reflexivity.
Qed.

(** *** Save *)

(** The calls of [onSave], read off its statements in order. *)
Definition savedCalls (s : State) : list Call :=
  [SetGlobalConfigValue "user.name" (committerName s);
   SetGlobalConfigValue "user.email" (committerEmail s);
   SetStatsOptOut (optOutOfUsageTracking s) false;
   SetConfirmRepoRemovalSetting (confirmRepositoryRemoval s);
   SetConfirmForcePushSetting (confirmForcePush s)]
  ++ match selectedExternalEditor s with
     | Some editor => [SetExternalEditor editor]
     | None => []
     end
  ++ [SetShell (selectedShell s);
      SetConfirmDiscardChangesSetting (confirmDiscardChanges s);
      SetUncommittedChangesStrategyKindSetting (uncommittedChangesStrategyKind s)]
  ++ match mergeTool s with
     | Some {| IMergeTool.name := String c r; IMergeTool.command := Some (String c' r') |} =>
         [SetGlobalConfigValue "merge.tool" (String c r);
          SetGlobalConfigValue (mergeToolCommandKey (String c r)) (String c' r')]
     | Some {| IMergeTool.name := String c r; IMergeTool.command := _ |} =>
         [SetGlobalConfigValue "merge.tool" (String c r)]
     | _ => []
     end
  ++ [OnDismissed].

(** Open a component into its fields, so that the statements of a method
    reduce; then the cases of [onSave]: editor or none, merge tool or none,
    its name and command empty or not. *)
Ltac open_component c :=
  let s := fresh "s" in
  let w := fresh "w" in
  destruct c as [s w];
  destruct s as [tab name email message optOut removal discard force theme strategy
                 editors editor shells shell tool].

Ltac cases_of_save editor tool :=
  destruct editor as [?chosen|];
  destruct tool as [[[|?c ?r] [[|?c' ?r']|]]|].

Lemma onSave_state (c : Component) : state (exec onSave c) = state c.
Proof.
  open_component c. cases_of_save editor tool; reflexivity.
Qed.

Lemma onSave_calls (c : Component) :
  calls (world (exec onSave c)) = calls (world c) ++ savedCalls (state c).
Proof.
  open_component c. unfold savedCalls.
  cases_of_save editor tool; run; rewrite <- ?List.app_assoc; reflexivity.
Qed.

Lemma callsOf_onSave (c : Component) : callsOf onSave c = savedCalls (state c).
Proof.
  unfold callsOf. rewrite onSave_calls. apply drop_app_length.
Qed.

(** The keys of the merge-tool commands are apart from the fixed keys, and
    from one another. *)
Lemma length_append (a b : string) :
  String.length (a +:+ b) = (String.length a + String.length b)%nat.
Proof.
  induction a as [|x a IH]; simpl; [reflexivity|]. now f_equal.
Qed.

Lemma append_cancel_r (t a b : string) : a +:+ t = b +:+ t -> a = b.
Proof.
  revert b. induction a as [|x a IH]; intros [|y b] H.
  - reflexivity.
  - apply (f_equal String.length) in H. rewrite !length_append in H. simpl in H. lia.
  - apply (f_equal String.length) in H. rewrite !length_append in H. simpl in H. lia.
  - change (String x (a +:+ t) = String y (b +:+ t)) in H.
    injection H as -> H. f_equal. now apply IH.
Qed.

Lemma mergeToolCommandKey_inj (a b : string) :
  mergeToolCommandKey a = mergeToolCommandKey b -> a = b.
Proof.
  unfold mergeToolCommandKey. intros H.
  apply (inj (String.append "mergetool.")) in H.
  now apply append_cancel_r in H.
Qed.

Lemma mergeToolCommandKey_fresh (name : string) :
  mergeToolCommandKey name <> "user.name"
  /\ mergeToolCommandKey name <> "user.email"
  /\ mergeToolCommandKey name <> "merge.tool".
Proof.
  unfold mergeToolCommandKey. cbv. repeat split; discriminate.
Qed.

Lemma keysWritten_savedCalls (s : State) :
  keysWritten (savedCalls s) =
  ["user.name"; "user.email"]
  ++ match mergeTool s with
     | Some {| IMergeTool.name := String c r; IMergeTool.command := Some (String _ _) |} =>
         ["merge.tool"; mergeToolCommandKey (String c r)]
     | Some {| IMergeTool.name := String c r; IMergeTool.command := _ |} => ["merge.tool"]
     | _ => []
     end.
Proof.
  unfold keysWritten, configWrites, savedCalls.
  destruct (selectedExternalEditor s), (mergeTool s) as [[[|c r] [[|c' r']|]]|];
    reflexivity.
Qed.

Lemma merge_tool_key_written (s : State) :
  "merge.tool" ∈ keysWritten (savedCalls s) <->
  exists t, mergeTool s = Some t /\ IMergeTool.name t <> "".
Proof.
  rewrite keysWritten_savedCalls.
  destruct (mergeTool s) as [[[|a n] [[|b cmd]|]]|]; cbn [app];
    rewrite ?elem_of_cons, ?elem_of_nil; split.
  all: try (intros [H | [H | H]]; discriminate H || contradiction).
  all: try (intros (t & [= <-] & H); cbn in H; congruence).
  all: try (intros (t & H & _); discriminate H).
  all: try (intros _; eexists; split; [reflexivity | discriminate]).
  all: intros _; right; right; left; reflexivity.
Qed.

Lemma merge_tool_command_key_written (s : State) (name : string) :
  mergeToolCommandKey name ∈ keysWritten (savedCalls s) <->
  exists t command,
    mergeTool s = Some t /\ IMergeTool.name t = name /\ name <> ""
    /\ IMergeTool.command t = Some command /\ command <> "".
Proof.
  rewrite keysWritten_savedCalls.
  destruct (mergeToolCommandKey_fresh name) as (Hname & Hemail & Htool).
  destruct (mergeTool s) as [[[|a n] [[|b cmd]|]]|]; cbn [app];
    rewrite ?elem_of_cons, ?elem_of_nil; split.
  all: try (intros [H | [H | H]]; contradiction).
  all: try (intros [H | [H | [H | H]]]; contradiction).
  all: try (intros (t & command & H & _); discriminate H).
  all: try (intros (t & command & [= <-] & H1 & H2 & H3 & H4);
            cbn in H1, H3; subst name;
            first [ now contradiction H2
                  | discriminate H3
                  | injection H3 as <-; now contradiction H4
                  | right; right; right; left; reflexivity ]).
  intros [H | [H | [H | [H | H]]]]; try contradiction.
  apply mergeToolCommandKey_inj in H as ->.
  eexists _, _. repeat split; discriminate.
Qed.

(** C1: in every run of [onSave], the key [merge.tool] is written if and
    only if the state holds a merge tool with a non-empty name; the key
    [mergetool.<name>.cmd] is written if and only if the state holds a merge
    tool of that name, the name is non-empty and its command is a non-empty
    string; with no merge tool, or an empty name, neither key is written. *)
Theorem onSave_merge_tool_keys (c : Component) :
  let keys := keysWritten (callsOf onSave c) in
  let tool := mergeTool (state c) in
  (("merge.tool" ∈ keys) <-> (exists t, tool = Some t /\ IMergeTool.name t <> ""))
  /\ (forall name,
        (mergeToolCommandKey name ∈ keys) <->
        (exists t command,
           tool = Some t /\ IMergeTool.name t = name /\ name <> ""
           /\ IMergeTool.command t = Some command /\ command <> ""))
  /\ ((tool = None \/ exists t, tool = Some t /\ IMergeTool.name t = "") ->
      ("merge.tool" ∉ keys) /\ (forall name, mergeToolCommandKey name ∉ keys)).
Proof.
  cbn zeta. rewrite callsOf_onSave.
  split; [apply merge_tool_key_written|].
  split; [intros name; apply merge_tool_command_key_written|].
  intros Hno. split; [|intros name].
  - rewrite merge_tool_key_written. intros (t & Ht & Hn).
    destruct Hno as [Hno | (t' & Ht' & Hn')]; congruence.
  - rewrite merge_tool_command_key_written. intros (t & command & Ht & Hn & Hne & _).
    destruct Hno as [Hno | (t' & Ht' & Hn')]; congruence.
Qed.

(** The order the spec gives to the writes of [onSave]: the configuration
    writes of the committer, then the behavior flags, then the tools, then
    the dismissal.  A call that [onSave] never makes has no rank. *)
Definition statedRank (call : Call) : option nat :=
  match call with
  | SetGlobalConfigValue key _ =>
      if bool_decide (key = "user.name" \/ key = "user.email") then Some 0%nat
      else Some 2%nat
  | SetStatsOptOut _ _ => Some 1%nat
  | SetConfirmRepoRemovalSetting _ => Some 1%nat
  | SetConfirmForcePushSetting _ => Some 1%nat
  | SetConfirmDiscardChangesSetting _ => Some 1%nat
  | SetExternalEditor _ => Some 2%nat
  | SetShell _ => Some 2%nat
  | SetUncommittedChangesStrategyKindSetting _ => Some 2%nat
  | OnDismissed => Some 3%nat
  | _ => None
  end.

Fixpoint ascending (ranks : list nat) : bool :=
  match ranks with
  | a :: (b :: _) as rest => (a <=? b)%nat && ascending rest
  | _ => true
  end.

(** The calls are made group after group, in the order the spec states. *)
Definition inStatedOrder (cs : list Call) : bool :=
  ascending (omap statedRank cs).

(** [onSave] writes the confirm-discard-changes flag after the shell: the
    calls of no run are in the stated order. *)
Lemma onSave_not_inStatedOrder (c : Component) :
  inStatedOrder (callsOf onSave c) = false.
Proof.
  rewrite callsOf_onSave. unfold inStatedOrder, savedCalls.
  destruct (selectedExternalEditor (state c)),
    (mergeTool (state c)) as [[[|a n] [[|b cmd]|]]|]; reflexivity.
Qed.

(** C5, amended: [onSave] makes its calls one after the other in this order,
    whatever the world: the committer name and e-mail; the telemetry opt-out,
    confirm-repository-removal and confirm-force-push flags; the external
    editor, when one is selected, and the shell; the confirm-discard-changes
    flag; the uncommitted-changes strategy and the merge tool (its name when
    non-empty, then its command when non-empty too); and last, after every
    write, [onDismissed]. *)
Theorem onSave_calls_in_order (c : Component) :
  let s := state c in
  callsOf onSave c =
    [SetGlobalConfigValue "user.name" (committerName s);
     SetGlobalConfigValue "user.email" (committerEmail s);
     SetStatsOptOut (optOutOfUsageTracking s) false;
     SetConfirmRepoRemovalSetting (confirmRepositoryRemoval s);
     SetConfirmForcePushSetting (confirmForcePush s)]
    ++ match selectedExternalEditor s with
       | Some editor => [SetExternalEditor editor]
       | None => []
       end
    ++ [SetShell (selectedShell s);
        SetConfirmDiscardChangesSetting (confirmDiscardChanges s);
        SetUncommittedChangesStrategyKindSetting (uncommittedChangesStrategyKind s)]
    ++ match mergeTool s with
       | Some tool =>
           match IMergeTool.name tool with
           | "" => []
           | String _ _ as name =>
               SetGlobalConfigValue "merge.tool" name
               :: match IMergeTool.command tool with
                  | Some (String _ _ as command) =>
                      [SetGlobalConfigValue (mergeToolCommandKey name) command]
                  | _ => []
                  end
           end
       | None => []
       end
    ++ [OnDismissed].
Proof.
  cbn zeta. rewrite callsOf_onSave. unfold savedCalls.
  destruct (mergeTool (state c)) as [[[|a n] [[|b cmd]|]]|]; reflexivity.
Qed.

Lemma onSave_committer_name_stored (c : Component) :
  globalConfig (world (exec onSave c)) !! "user.name" = Some (committerName (state c)).
Proof.
  open_component c.
  cases_of_save editor tool; run;
    repeat match goal with
    | |- <[mergeToolCommandKey ?n := _]> _ !! _ = _ =>
        rewrite lookup_insert_ne by apply mergeToolCommandKey_fresh
    | |- <[_ := _]> _ !! _ = _ => rewrite lookup_insert_ne by discriminate
    end;
    apply lookup_insert_eq.
Qed.

(** C9: [onSave] checks no validity.  In every state whose
    [disallowedCharactersMessage] is not null, a run of [onSave] still writes
    the committer name of the state to [user.name], first of all its calls,
    the name is what the configuration holds afterwards, and the run ends
    with [onDismissed]; what stands in the way is the Save button, which
    every footer rendered in such a state shows disabled. *)
Theorem onSave_writes_invalid_name (c : Component) (message : string) :
  disallowedCharactersMessage (state c) = Some message ->
  head (callsOf onSave c) = Some (SetGlobalConfigValue "user.name" (committerName (state c)))
  /\ globalConfig (world (exec onSave c)) !! "user.name" = Some (committerName (state c))
  /\ last (callsOf onSave c) = Some OnDismissed
  /\ (forall footer,
        renderFooter (state c) = Returned (Some footer) -> okButtonDisabled footer = true).
Proof.
  intros Hmessage. split; [|split; [|split]].
  - rewrite callsOf_onSave. reflexivity.
  - apply onSave_committer_name_stored.
  - rewrite callsOf_onSave. unfold savedCalls.
    rewrite !(assoc_L (++)). apply last_snoc.
  - intros footer. unfold renderFooter, assertNever. rewrite Hmessage.
    repeat match goal with |- context [if ?b then _ else _] => destruct b end;
      intros [= <-] || discriminate; reflexivity.
Qed.

(** *** The merge tool *)

(** C10: when the state holds no merge tool and the user edits the command,
    the state then holds a merge tool with the empty name and that command; a
    save from there writes [user.name] and [user.email] to the configuration
    and nothing else, so neither [merge.tool] nor any [mergetool.<name>.cmd],
    and the command is nowhere written; editing the name next gives a merge
    tool with the new name and the command entered before. *)
Theorem command_without_name_is_not_saved (c : Component) (command : string) :
  mergeTool (state c) = None ->
  let c1 := exec (onMergeToolCommandChanged command) c in
  mergeTool (state c1) = Some {| IMergeTool.name := ""; IMergeTool.command := Some command |}
  /\ configWrites (callsOf onSave c1) =
       [("user.name", committerName (state c)); ("user.email", committerEmail (state c))]
  /\ ("merge.tool" ∉ keysWritten (callsOf onSave c1))
  /\ (forall name, mergeToolCommandKey name ∉ keysWritten (callsOf onSave c1))
  /\ (forall name,
        mergeTool (state (exec (onMergeToolNameChanged name) c1)) =
        Some {| IMergeTool.name := name; IMergeTool.command := Some command |}).
Proof.
  intros Hnone. cbn zeta.
  open_component c. cbn in Hnone. subst tool.
  assert (Hwrites :
    configWrites (callsOf onSave (exec (onMergeToolCommandChanged command)
      (mkComponent
         (mkState tab name email message optOut removal discard force theme strategy
            editors editor shells shell None) w))) =
    [("user.name", name); ("user.email", email)]).
  { rewrite callsOf_onSave. destruct editor; reflexivity. }
  split; [reflexivity|]. split; [exact Hwrites|].
  unfold keysWritten. rewrite Hwrites. cbn [fmap list_fmap fst].
  split; [|split].
  - rewrite !elem_of_cons, elem_of_nil. intros [H | [H | H]]; discriminate H || exact H.
  - intros key. destruct (mergeToolCommandKey_fresh key) as (Hn & He & _).
    rewrite !elem_of_cons, elem_of_nil. intros [H | [H | H]]; contradiction.
  - intros name'. reflexivity.
Qed.

(** *** The committer name *)

Lemma onCommitterNameChanged_state (name : string) (c : Component) :
  let c' := exec (onCommitterNameChanged name) c in
  committerName (state c') = name
  /\ disallowedCharactersMessage (state c') =
       (if gitAuthorNameIsValid name then None else Some invalidNameMessage)
  /\ world c' = world c.
Proof.
  destruct c as [s w]. run. repeat split.
Qed.

(** *** Load *)

(** C4: when a signed-in account exists (the dot-com one, or else the
    enterprise one) the load seeds what the configuration lacks: a committer
    name that is null or empty becomes the login of the account, a committer
    e-mail that is null or empty becomes the e-mail [lookupPreferredEmail]
    finds for the account, and the empty string when it finds none.  A value
    the configuration has is kept, and with no account a missing value is the
    empty string.  In every case the load makes no call, leaves the
    configuration as it is and does not touch the error message of the
    dialog. *)
Theorem componentWillMount_seeds_identity (props : Props) (c : Component) :
  let config := globalConfig (world c) in
  let c' := exec (componentWillMount props) c in
  (forall account,
     Props.dotComAccount props = Some account
     \/ (Props.dotComAccount props = None /\ Props.enterpriseAccount props = Some account) ->
     (truthy (config !! "user.name") = false ->
      committerName (state c') = Account.login account)
     /\ (truthy (config !! "user.email") = false ->
         committerEmail (state c') =
           match lookupPreferredEmail account with
           | Some found => IAPIEmail.email found
           | None => ""
           end))
  /\ (forall value, config !! "user.name" = Some value -> value <> "" ->
      committerName (state c') = value)
  /\ (forall value, config !! "user.email" = Some value -> value <> "" ->
      committerEmail (state c') = value)
  /\ (Props.dotComAccount props = None -> Props.enterpriseAccount props = None ->
      committerName (state c') = orString (config !! "user.name") ""
      /\ committerEmail (state c') = orString (config !! "user.email") "")
  /\ world c' = world c
  /\ disallowedCharactersMessage (state c') = disallowedCharactersMessage (state c).
Proof.
  cbn zeta.
  destruct c as [s [config foundEditors foundShells configured made]].
  split; [intros account Haccount|].
  - assert (Hor : orObject (Props.dotComAccount props) (Props.enterpriseAccount props)
                  = Some account).
    { destruct Haccount as [-> | [-> ->]]; reflexivity. }
    run. rewrite Hor.
    destruct (config !! "user.name") as [[|a n]|];
      destruct (config !! "user.email") as [[|b e]|];
      destruct (lookupPreferredEmail account) as [[[|x y] v]|];
      cbn; split; try discriminate; try reflexivity.
    all: intros _; destruct (Account.login account); reflexivity.
  - run.
    destruct (config !! "user.name") as [[|a n]|];
      destruct (config !! "user.email") as [[|b e]|];
      destruct (Props.dotComAccount props) as [dotCom|];
      destruct (Props.enterpriseAccount props) as [enterprise|];
      cbn [orObject negb orb truthy];
      repeat match goal with
      | |- context [lookupPreferredEmail ?a] => destruct (lookupPreferredEmail a)
      end;
      cbn; repeat split; try discriminate; try reflexivity;
      try (intros value [= <-] H; reflexivity || now contradiction H).
Qed.

(** The load ends in one [setState]: the identity it has worked out, the
    props of the hosting application, and what discovery returned. *)
Lemma componentWillMount_commits (props : Props) (c : Component) :
  exists name email,
    exec (componentWillMount props) c =
    exec (setState [
      CommitterName name;
      CommitterEmail email;
      OptOutOfUsageTracking (Props.optOutOfUsageTracking props);
      ConfirmRepositoryRemoval (Props.confirmRepositoryRemoval props);
      ConfirmDiscardChanges (Props.confirmDiscardChanges props);
      ConfirmForcePush (Props.confirmForcePush props);
      UncommittedChangesStrategyKind (Props.uncommittedChangesStrategyKind props);
      AvailableShells (map FoundShell.shell (installedShells (world c)));
      AvailableEditors (map FoundEditor.editor (installedEditors (world c)));
      MergeTool (configuredMergeTool (world c))
    ]) c.
Proof.
  destruct c as [s [config foundEditors foundShells configured made]].
  run.
  destruct (config !! "user.name") as [[|a n]|];
    destruct (config !! "user.email") as [[|b e]|];
    destruct (orObject (Props.dotComAccount props) (Props.enterpriseAccount props))
      as [account|];
    try destruct (lookupPreferredEmail account);
    cbn; eexists _, _; reflexivity.
Qed.

(** *** Selections passed in by the hosting application *)

Inductive Selection : Type :=
| ExternalEditorSelection
| ShellSelection
| OptOutSelection
| ConfirmRepositoryRemovalSelection
| ConfirmDiscardChangesSelection
| ConfirmForcePushSelection
| StrategySelection.

(** The event is the user editing the selection. *)
Definition edits (selection : Selection) (e : Event) : bool :=
  match selection, e with
  | ExternalEditorSelection, SelectedEditorChanged _ => true
  | ShellSelection, SelectedShellChanged _ => true
  | OptOutSelection, OptOutofReportingChanged _ => true
  | ConfirmRepositoryRemovalSelection, ConfirmRepositoryRemovalChanged _ => true
  | ConfirmDiscardChangesSelection, ConfirmDiscardChangesChanged _ => true
  | ConfirmForcePushSelection, ConfirmForcePushChanged _ => true
  | StrategySelection, UncommittedChangesStrategyKindChanged _ => true
  | _, _ => false
  end.

(** The user has not edited the selection in the course of the events. *)
Definition unedited (selection : Selection) (events : list Event) : Prop :=
  Forall (fun e => edits selection e = false) events.

Definition isLoaded (e : Event) : bool :=
  match e with
  | Loaded => true
  | _ => false
  end.

(** The load has completed in the course of the events. *)
Definition loaded (events : list Event) : bool := existsb isLoaded events.

Section Field.

Variable props : Props.
Context {A : Type}.
(** A field of the state, edited by the events of one selection. *)
Variable field : State -> A.
Variable selection : Selection.

Hypothesis kept_by_handlers :
  forall e c, edits selection e = false -> isLoaded e = false ->
    field (state (exec (handle props e) c)) = field (state c).

(** A field that the load does not assign keeps its value. *)
Lemma after_kept (events : list Event) (c : Component) :
  (forall c, field (state (exec (componentWillMount props) c)) = field (state c)) ->
  unedited selection events ->
  field (state (after props events c)) = field (state c).
Proof using kept_by_handlers.
  intros Hload Hun. revert c.
  induction Hun as [|e events He _ IH]; intros c; [reflexivity|].
  unfold after in *. cbn [fold_left]. rewrite IH.
  destruct (isLoaded e) eqn:El; [|now apply kept_by_handlers].
  destruct e; try discriminate. apply Hload.
Qed.

(** A field that the load assigns has the assigned value from the load on. *)
Lemma after_assigned (value : A) (events : list Event) (c : Component) :
  (forall c, field (state (exec (componentWillMount props) c)) = value) ->
  unedited selection events ->
  field (state (after props events c)) =
    if loaded events then value else field (state c).
Proof using kept_by_handlers.
  intros Hload Hun. revert c.
  induction Hun as [|e events He _ IH]; intros c; [reflexivity|].
  unfold after, loaded in *. cbn [fold_left existsb]. rewrite IH.
  destruct (isLoaded e) eqn:El; cbn [orb].
  - destruct e; try discriminate. cbn [handle]. rewrite Hload.
    now destruct (existsb isLoaded events).
  - rewrite kept_by_handlers by assumption. reflexivity.
Qed.

End Field.

Ltac kept_by_handlers :=
  let e := fresh "e" in
  let c := fresh "c" in
  intros e c ? ?; destruct e; try discriminate;
  try (cbn [handle]; rewrite onSave_state; reflexivity);
  destruct c; reflexivity.

Ltac assigned_by_load props c :=
  destruct (componentWillMount_commits props c) as (?name & ?email & ->);
  destruct c; reflexivity.

(** C6, amended: as long as the user has not edited them, the external
    editor and the shell of the state are those of the props from the
    construction on, the load included; the telemetry opt-out, the three
    confirm flags and the uncommitted-changes strategy are those of the props
    once the load has completed, and until then they are [false] and the
    default strategy, whatever the props. *)
Theorem selections_follow_props (props : Props) (w : World) (events : list Event) :
  let s := state (after props events (opened props w)) in
  (unedited ExternalEditorSelection events ->
   selectedExternalEditor s = Props.selectedExternalEditor props)
  /\ (unedited ShellSelection events -> selectedShell s = Props.selectedShell props)
  /\ (unedited OptOutSelection events ->
      optOutOfUsageTracking s =
        if loaded events then Props.optOutOfUsageTracking props else false)
  /\ (unedited ConfirmRepositoryRemovalSelection events ->
      confirmRepositoryRemoval s =
        if loaded events then Props.confirmRepositoryRemoval props else false)
  /\ (unedited ConfirmDiscardChangesSelection events ->
      confirmDiscardChanges s =
        if loaded events then Props.confirmDiscardChanges props else false)
  /\ (unedited ConfirmForcePushSelection events ->
      confirmForcePush s =
        if loaded events then Props.confirmForcePush props else false)
  /\ (unedited StrategySelection events ->
      uncommittedChangesStrategyKind s =
        if loaded events then Props.uncommittedChangesStrategyKind props
        else uncommittedChangesStrategyKindDefault).
Proof.
  cbn zeta. repeat split; intros Hun.
  - refine (after_kept props selectedExternalEditor ExternalEditorSelection
              _ events (opened props w) _ Hun);
      [kept_by_handlers | intros c; assigned_by_load props c].
  - refine (after_kept props selectedShell ShellSelection
              _ events (opened props w) _ Hun);
      [kept_by_handlers | intros c; assigned_by_load props c].
  - refine (after_assigned props optOutOfUsageTracking OptOutSelection
              _ _ events (opened props w) _ Hun);
      [kept_by_handlers | intros c; assigned_by_load props c].
  - refine (after_assigned props confirmRepositoryRemoval ConfirmRepositoryRemovalSelection
              _ _ events (opened props w) _ Hun);
      [kept_by_handlers | intros c; assigned_by_load props c].
  - refine (after_assigned props confirmDiscardChanges ConfirmDiscardChangesSelection
              _ _ events (opened props w) _ Hun);
      [kept_by_handlers | intros c; assigned_by_load props c].
  - refine (after_assigned props confirmForcePush ConfirmForcePushSelection
              _ _ events (opened props w) _ Hun);
      [kept_by_handlers | intros c; assigned_by_load props c].
  - refine (after_assigned props uncommittedChangesStrategyKind StrategySelection
              _ _ events (opened props w) _ Hun);
      [kept_by_handlers | intros c; assigned_by_load props c].
Qed.

(** ** Further properties of the component *)

(** *** What a save leaves in the configuration *)

(** The configuration after [onSave]: the writes of its statements, on top
    of what was there. *)
Lemma onSave_globalConfig (c : Component) :
  let s := state c in
  let identity :=
    <["user.email" := committerEmail s]>
      (<["user.name" := committerName s]> (globalConfig (world c))) in
  globalConfig (world (exec onSave c)) =
    match mergeTool s with
    | Some {| IMergeTool.name := String a n; IMergeTool.command := Some (String b cmd) |} =>
        <[mergeToolCommandKey (String a n) := String b cmd]>
          (<["merge.tool" := String a n]> identity)
    | Some {| IMergeTool.name := String a n; IMergeTool.command := _ |} =>
        <["merge.tool" := String a n]> identity
    | _ => identity
    end.
Proof.
  open_component c. cases_of_save editor tool; reflexivity.
Qed.

(** X1: after a save the configuration holds the committer name and e-mail
    of the state under [user.name] and [user.email]; when the merge tool has
    a non-empty name it holds that name under [merge.tool], and when the
    command is a non-empty string too it holds the command under
    [mergetool.<name>.cmd]. *)
Theorem onSave_stores_identity_and_tool (c : Component) :
  let s := state c in
  let config' := globalConfig (world (exec onSave c)) in
  config' !! "user.name" = Some (committerName s)
  /\ config' !! "user.email" = Some (committerEmail s)
  /\ (forall tool,
        mergeTool s = Some tool -> IMergeTool.name tool <> "" ->
        config' !! "merge.tool" = Some (IMergeTool.name tool)
        /\ (forall command,
              IMergeTool.command tool = Some command -> command <> "" ->
              config' !! mergeToolCommandKey (IMergeTool.name tool) = Some command)).
Proof.
  cbn zeta. split; [apply onSave_committer_name_stored|].
  rewrite onSave_globalConfig. cbn zeta.
  destruct (mergeTool (state c)) as [[[|a n] [[|b cmd]|]]|].
  all: split;
    [ repeat first
        [ rewrite lookup_insert_ne by apply mergeToolCommandKey_fresh
        | rewrite lookup_insert_ne by discriminate ];
      apply lookup_insert_eq
    | intros tool Htool Hname; try discriminate Htool;
      injection Htool as <-; cbn in Hname; try now contradiction Hname ].
  all: split;
    [ repeat rewrite lookup_insert_ne by apply mergeToolCommandKey_fresh;
      apply lookup_insert_eq
    | intros command Hcommand Hne; cbn in Hcommand; try discriminate Hcommand;
      injection Hcommand as <-; try now contradiction Hne ].
  apply lookup_insert_eq.
Qed.

(** X2: a save changes the configuration at the keys it writes and nowhere
    else.  In particular an empty merge-tool name writes no [merge.tool], so
    the value the configuration had under that key stays. *)
Theorem onSave_keeps_other_keys (c : Component) (key : string) :
  key ∉ keysWritten (callsOf onSave c) ->
  globalConfig (world (exec onSave c)) !! key = globalConfig (world c) !! key.
Proof.
  rewrite callsOf_onSave, keysWritten_savedCalls, onSave_globalConfig. cbn zeta.
  destruct (mergeTool (state c)) as [[[|a n] [[|b cmd]|]]|]; cbn [app];
    rewrite ?not_elem_of_cons; intros Hkey;
    repeat match type of Hkey with _ /\ _ => destruct Hkey as [? Hkey] end;
    repeat rewrite lookup_insert_ne by (intros Heq; symmetry in Heq; contradiction);
    reflexivity.
Qed.

(** X3: saving a second time changes nothing: the state is as before, the
    same calls are made again, and the configuration is the one the first
    save left. *)
Theorem onSave_twice (c : Component) :
  let c1 := exec onSave c in
  let c2 := exec onSave c1 in
  state c2 = state c
  /\ callsOf onSave c1 = callsOf onSave c
  /\ globalConfig (world c2) = globalConfig (world c1).
Proof.
  cbn zeta. split; [now rewrite !onSave_state|].
  split; [now rewrite !callsOf_onSave, onSave_state|].
  rewrite (onSave_globalConfig (exec onSave c)). cbn zeta.
  rewrite onSave_state, onSave_globalConfig. cbn zeta.
  apply map_eq. intros key.
  destruct (mergeTool (state c)) as [[[|a n] [[|b cmd]|]]|];
    rewrite !lookup_insert; repeat case_decide; reflexivity.
Qed.

(** *** What the load makes of the configuration *)

(** The committer name and e-mail the load commits. *)
Lemma componentWillMount_identity (props : Props) (c : Component) :
  let config := globalConfig (world c) in
  let account := orObject (Props.dotComAccount props) (Props.enterpriseAccount props) in
  let c' := exec (componentWillMount props) c in
  committerName (state c') =
    match config !! "user.name" with
    | Some (String a n) => String a n
    | _ => match account with
           | Some account => Account.login account
           | None => ""
           end
    end
  /\ committerEmail (state c') =
       match config !! "user.email" with
       | Some (String b e) => String b e
       | _ => match account with
              | Some account =>
                  match lookupPreferredEmail account with
                  | Some found => IAPIEmail.email found
                  | None => ""
                  end
              | None => ""
              end
       end.
Proof.
  cbn zeta.
  destruct c as [s [config foundEditors foundShells configured made]].
  run.
  destruct (config !! "user.name") as [[|a n]|];
    destruct (config !! "user.email") as [[|b e]|];
    destruct (orObject (Props.dotComAccount props) (Props.enterpriseAccount props))
      as [account|];
    try destruct (lookupPreferredEmail account) as [[[|x y] v]|];
    cbn; split; try reflexivity;
    destruct (Account.login account); reflexivity.
Qed.

(** X4: a dialog opened on the world a save has left loads back the
    committer name and e-mail that were saved, when they are non-empty,
    whatever its props.  An empty name or e-mail that was saved is not kept:
    the load replaces it by the login, or the preferred e-mail, of the
    account when one is signed in. *)
Theorem saved_identity_is_loaded_back (c : Component) (props' : Props) :
  let s := state c in
  let account := orObject (Props.dotComAccount props') (Props.enterpriseAccount props') in
  let reopened :=
    exec (componentWillMount props') (opened props' (world (exec onSave c))) in
  (committerName s <> "" -> committerName (state reopened) = committerName s)
  /\ (committerEmail s <> "" -> committerEmail (state reopened) = committerEmail s)
  /\ (committerName s = "" ->
      committerName (state reopened) =
        match account with
        | Some account => Account.login account
        | None => ""
        end)
  /\ (committerEmail s = "" ->
      committerEmail (state reopened) =
        match account with
        | Some account =>
            match lookupPreferredEmail account with
            | Some found => IAPIEmail.email found
            | None => ""
            end
        | None => ""
        end).
Proof.
  cbn zeta.
  destruct (componentWillMount_identity props' (opened props' (world (exec onSave c))))
    as (Hname & Hemail).
  cbn zeta in Hname, Hemail. rewrite Hname, Hemail. clear Hname Hemail.
  unfold opened. cbn [world].
  assert (Hn : globalConfig (world (exec onSave c)) !! "user.name"
               = Some (committerName (state c)))
    by apply onSave_committer_name_stored.
  assert (He : globalConfig (world (exec onSave c)) !! "user.email"
               = Some (committerEmail (state c))).
  { rewrite onSave_globalConfig. cbn zeta.
    destruct (mergeTool (state c)) as [[[|a n] [[|b cmd]|]]|];
      repeat first
        [ rewrite lookup_insert_ne by apply mergeToolCommandKey_fresh
        | rewrite lookup_insert_ne by discriminate ];
      apply lookup_insert_eq. }
  rewrite Hn, He.
  destruct (committerName (state c)) as [|a n], (committerEmail (state c)) as [|b e];
    repeat split; intros H; try reflexivity; try discriminate H; now contradiction H.
Qed.

(** *** Fields that the last event of a kind decides *)

Lemma after_snoc (props : Props) (events : list Event) (e : Event) (c : Component) :
  after props (events ++ [e]) c = exec (handle props e) (after props events c).
Proof.
  unfold after. now rewrite fold_left_app.
Qed.

Section LastWins.

Variable props : Props.
Context {A B : Type}.
Variable field : State -> A.
(** The value an event carries for the field, when it is of the kind. *)
Variable carried : Event -> option B.
Variable assigned : B -> A.

Hypothesis handled :
  forall e c,
    field (state (exec (handle props e) c)) =
      match carried e with
      | Some v => assigned v
      | None => field (state c)
      end.

Lemma after_last_wins (events : list Event) (c : Component) :
  field (state (after props events c)) =
    match last (omap carried events) with
    | Some v => assigned v
    | None => field (state c)
    end.
Proof using handled.
  induction events as [|e events IH] using rev_ind; [reflexivity|].
  rewrite after_snoc, handled, omap_app. cbn [omap list_omap].
  destruct (carried e) as [v|].
  - now rewrite last_snoc.
  - now rewrite app_nil_r.
Qed.

End LastWins.

(** The name an event types into the committer-name field. *)
Definition nameTyped (e : Event) : option string :=
  match e with
  | CommitterNameChanged name => Some name
  | _ => None
  end.

(** The tab an event clicks. *)
Definition tabClicked (e : Event) : option Z :=
  match e with
  | TabClicked index => Some index
  | _ => None
  end.

Ltac by_handler props e c :=
  destruct e;
  try (cbn [handle]; rewrite onSave_state; reflexivity);
  try (cbn [handle];
       destruct (componentWillMount_commits props c) as (?name & ?email & ->));
  destruct c; reflexivity.

(** X5: at every point of a session the error message is the verdict on the
    last name the user typed, and null when no name was typed.  The load
    seeds a committer name without a verdict on it, and a load that completes
    after a name was typed replaces the name and keeps the message. *)
Theorem message_follows_last_name_typed (props : Props) (w : World) (events : list Event) :
  disallowedCharactersMessage (state (after props events (opened props w))) =
    match last (omap nameTyped events) with
    | Some name => if gitAuthorNameIsValid name then None else Some invalidNameMessage
    | None => None
    end.
Proof.
  apply (after_last_wins props disallowedCharactersMessage nameTyped
           (fun name => if gitAuthorNameIsValid name then None else Some invalidNameMessage)).
  intros e c. by_handler props e c.
Qed.

(** X6: the selected tab changes by tab clicks only: at every point of a
    session it is the index of the last tab click, and with no click yet the
    tab the dialog was constructed with; the load, a save and the edits
    leave it. *)
Theorem selected_tab_follows_last_click (props : Props) (w : World) (events : list Event) :
  selectedIndex (state (after props events (opened props w))) =
    match last (omap tabClicked events) with
    | Some index => index
    | None => orTab (Props.initialSelectedTab props) PreferencesTab.Accounts
    end.
Proof.
  apply (after_last_wins props selectedIndex tabClicked (fun index => index)).
  intros e c. by_handler props e c.
Qed.

(** *** A save and the load, in either order *)


(** X8: the [setState] that ends the load assigns the flags, the strategy
    and the merge tool whatever they were: an edit of one of them that the
    user made while the load was under way is lost when it completes.  The
    selected tab, the editor and the shell the user chose meanwhile, and the
    error message, are kept. *)
Theorem load_overwrites_earlier_edits (props : Props) (w : World) (events : list Event) :
  let before := after props events (opened props w) in
  let s' := state (after props (events ++ [Loaded]) (opened props w)) in
  optOutOfUsageTracking s' = Props.optOutOfUsageTracking props
  /\ confirmRepositoryRemoval s' = Props.confirmRepositoryRemoval props
  /\ confirmDiscardChanges s' = Props.confirmDiscardChanges props
  /\ confirmForcePush s' = Props.confirmForcePush props
  /\ uncommittedChangesStrategyKind s' = Props.uncommittedChangesStrategyKind props
  /\ mergeTool s' = configuredMergeTool (world before)
  /\ selectedIndex s' = selectedIndex (state before)
  /\ selectedExternalEditor s' = selectedExternalEditor (state before)
  /\ selectedShell s' = selectedShell (state before)
  /\ disallowedCharactersMessage s' = disallowedCharactersMessage (state before).
Proof.
  cbn zeta. rewrite after_snoc. cbn [handle].
  destruct (componentWillMount_commits props (after props events (opened props w)))
    as (name & email & ->).
  destruct (after props events (opened props w)) as [s w']. repeat split.
Qed.

(** *** The merge tool *)

(** X9: the name and the command of the merge tool can be edited in either
    order: both orders end in the same component, whose merge tool has the
    name and the command entered, whatever it held before. *)
Theorem merge_tool_edits_commute (c : Component) (newName newCommand : string) :
  exec (onMergeToolCommandChanged newCommand) (exec (onMergeToolNameChanged newName) c)
  = exec (onMergeToolNameChanged newName) (exec (onMergeToolCommandChanged newCommand) c)
  /\ mergeTool
       (state (exec (onMergeToolCommandChanged newCommand)
                 (exec (onMergeToolNameChanged newName) c)))
     = Some {| IMergeTool.name := newName; IMergeTool.command := Some newCommand |}.
Proof.
  open_component c. destruct tool as [[n cmd]|]; split; reflexivity.
Qed.

(** *** What the handlers keep apart *)

(** X10: no handler both changes the state and touches the world outside:
    each of them, and the load, leaves one of the two as it was.  The
    configuration is written by a save and by nothing else. *)
Theorem handlers_keep_state_or_world (props : Props) (e : Event) (c : Component) :
  let c' := exec (handle props e) c in
  (state c' = state c \/ world c' = world c)
  /\ (e = Save \/ globalConfig (world c') = globalConfig (world c)).
Proof.
  cbn zeta. destruct e;
    try (split; [left; apply onSave_state | left; reflexivity]);
    try (cbn [handle];
         destruct (componentWillMount_commits props c) as (name & email & ->));
    destruct c as [s w]; split; (right; reflexivity) || (left; reflexivity).
Qed.

(** *** The calls of a session *)

(** The handlers add to the calls made and never take from them. *)
Lemma handle_calls (props : Props) (e : Event) (c : Component) :
  calls (world (exec (handle props e) c)) =
  calls (world c) ++ callsOf (handle props e) c.
Proof.
  unfold callsOf.
  destruct e;
    try (cbn [handle]; rewrite onSave_calls, drop_app_length; reflexivity);
    try (cbn [handle];
         destruct (componentWillMount_commits props c) as (name & email & ->));
    destruct c as [s w]; run;
    rewrite <- ?List.app_assoc, ?drop_app_length, ?drop_all, ?app_nil_r; reflexivity.
Qed.

(** The calls of each handler. *)
Lemma callsOf_handle (props : Props) (e : Event) (c : Component) :
  callsOf (handle props e) c =
    match e with
    | Save => savedCalls (state c)
    | DotComSignIn => [OnDismissed; ShowDotComSignInDialog]
    | EnterpriseSignIn => [OnDismissed; ShowEnterpriseSignInDialog]
    | Logout account => [RemoveAccount account]
    | SelectedThemeChanged theme => [SetSelectedTheme theme]
    | AutomaticallySwitchThemeChanged value => [OnAutomaticallySwitchThemeChanged value]
    | _ => []
    end.
Proof.
  destruct e;
    try (cbn [handle]; apply callsOf_onSave);
    try (cbn [handle]; unfold callsOf;
         destruct (componentWillMount_commits props c) as (name & email & ->));
    destruct c as [s [config foundEditors foundShells configured made]];
    unfold callsOf; run;
    rewrite <- ?List.app_assoc, ?drop_app_length, ?drop_all; reflexivity.
Qed.

(** The theme a call hands to the dispatcher, and the theme an event picks. *)
Definition themeDispatched (call : Call) : option ApplicationTheme :=
  match call with
  | SetSelectedTheme theme => Some theme
  | _ => None
  end.

Definition themePicked (e : Event) : option ApplicationTheme :=
  match e with
  | SelectedThemeChanged theme => Some theme
  | _ => None
  end.

Definition isDismissal (call : Call) : bool :=
  match call with
  | OnDismissed => true
  | _ => false
  end.

(** The events whose handlers call [onDismissed]. *)
Definition dismisses (e : Event) : bool :=
  match e with
  | Save | DotComSignIn | EnterpriseSignIn => true
  | _ => false
  end.

Lemma themeDispatched_savedCalls (s : State) : omap themeDispatched (savedCalls s) = [].
Proof.
  unfold savedCalls.
  destruct (selectedExternalEditor s), (mergeTool s) as [[[|a n] [[|b cmd]|]]|];
    reflexivity.
Qed.

Lemma isDismissal_savedCalls (s : State) :
  length (List.filter isDismissal (savedCalls s)) = 1%nat.
Proof.
  unfold savedCalls.
  destruct (selectedExternalEditor s), (mergeTool s) as [[[|a n] [[|b cmd]|]]|];
    reflexivity.
Qed.

(** X11: the themes handed to the dispatcher in the course of a session are
    the themes the user picked, each once and in the order picked: a pick is
    dispatched at once, without a save, and no other handler, a save
    included, sets a theme. *)
Theorem themes_dispatched_as_picked (props : Props) (events : list Event) (c : Component) :
  omap themeDispatched (calls (world (after props events c))) =
  omap themeDispatched (calls (world c)) ++ omap themePicked events.
Proof.
  induction events as [|e events IH] using rev_ind.
  - cbn. now rewrite app_nil_r.
  - rewrite after_snoc, handle_calls, !omap_app, IH, <- List.app_assoc. f_equal. f_equal.
    rewrite callsOf_handle.
    destruct e; try reflexivity. apply themeDispatched_savedCalls.
Qed.

(** X12: in the course of a session [onDismissed] is called once for every
    save and every sign-in, and by nothing else: not by the load, a logout,
    a tab click or an edit. *)
Theorem dismissed_once_per_save_or_sign_in
    (props : Props) (events : list Event) (c : Component) :
  length (List.filter isDismissal (calls (world (after props events c)))) =
  (length (List.filter isDismissal (calls (world c)))
   + length (List.filter dismisses events))%nat.
Proof.
  induction events as [|e events IH] using rev_ind.
  - cbn. lia.
  - rewrite after_snoc, handle_calls, !List.filter_app, !length_app, IH.
    rewrite <- Nat.add_assoc. f_equal. f_equal.
    rewrite callsOf_handle.
    destruct e; try reflexivity. apply isDismissal_savedCalls.
Qed.

(** *** Appearance *)

Lemma omap_nothing {A B : Type} (events : list A) :
  omap (fun _ : A => @None B) events = [].
Proof.
  induction events as [|e events IH]; [reflexivity | exact IH].
Qed.

(** X13: the [automaticallySwitchTheme] field of the state is [false] at
    every point of a session: no handler assigns it, the one for the switch
    included, which calls the dispatcher.  The Appearance tab does not read
    it: it shows the theme and the switch of the props, and has no footer. *)
Theorem appearance_reads_props (props : Props) (w : World) (events : list Event) :
  let s := state (after props events (opened props w)) in
  automaticallySwitchTheme s = false
  /\ (selectedIndex s = PreferencesTab.Appearance ->
      renderActiveTab props s =
        Returned (AppearanceView (Props.selectedTheme props)
                    (Props.automaticallySwitchTheme props))
      /\ renderFooter s = Returned None).
Proof.
  cbn zeta. split.
  - rewrite (after_last_wins props automaticallySwitchTheme
               (fun _ => @None bool) (fun v => v)).
    + now rewrite omap_nothing.
    + intros e c. by_handler props e c.
  - intros Htab. unfold renderActiveTab, renderFooter. rewrite Htab. split; reflexivity.
Qed.

(** *** The dialog as constructed *)

(** X14: the dialog is constructed on the Accounts tab when the props give
    no initial tab, or give the tab numbered 0, and on the tab given
    otherwise; it renders if and only if the props give no initial tab or
    one of the five of the enumeration, and ends in [assertNever] on any
    other number. *)
Theorem constructed_dialog_renders (props : Props) :
  let s := constructor props in
  (Props.initialSelectedTab props = None -> selectedIndex s = PreferencesTab.Accounts)
  /\ (forall index,
        Props.initialSelectedTab props = Some index ->
        selectedIndex s = index
        /\ (index ∈ PreferencesTab.all -> exists dialog, render props s = Returned dialog)
        /\ (index ∉ PreferencesTab.all -> render props s = Threw (UnknownTabIndex index))).
Proof.
  cbn zeta. unfold render, constructor at 1. cbn [selectedIndex]. split.
  - intros ->. reflexivity.
  - intros index Hindex.
    assert (Htab : selectedIndex (constructor props) = index).
    { unfold constructor. cbn [selectedIndex]. rewrite Hindex. unfold orTab.
      destruct (Z.eqb_spec index 0) as [-> | _]; reflexivity. }
    split; [unfold constructor in Htab; cbn [selectedIndex] in Htab; exact Htab|].
    split.
    + rewrite tab_in_enumeration. unfold renderActiveTab, renderFooter. rewrite Htab.
      intros [-> | [-> | [-> | [-> | ->]]]]; cbn; eexists; reflexivity.
    + intros Hout. rewrite <- Htab in Hout.
      rewrite (renderActiveTab_unknown props _ Hout). now rewrite Htab.
Qed.

(** *** The external editor *)

Lemma editor_kept_selected (props : Props) (e : Event) (c : Component) :
  is_Some (selectedExternalEditor (state c)) ->
  is_Some (selectedExternalEditor (state (exec (handle props e) c))).
Proof.
  destruct e;
    try (cbn [handle]; rewrite onSave_state; exact (fun H => H));
    try (cbn [handle];
         destruct (componentWillMount_commits props c) as (name & email & ->));
    destruct c as [s w]; try exact (fun H => H).
  intros _. eexists. reflexivity.
Qed.

(** X15: an external editor, once selected, stays selected: the user can
    replace it by another one and no event takes it away, so every save
    from then on hands the editor then selected to the dispatcher. *)
Theorem editor_stays_selected (props : Props) (events : list Event) (c : Component) :
  is_Some (selectedExternalEditor (state c)) ->
  exists editor,
    selectedExternalEditor (state (after props events c)) = Some editor
    /\ SetExternalEditor editor ∈ callsOf onSave (after props events c).
Proof.
  intros Hselected.
  assert (Hafter : is_Some (selectedExternalEditor (state (after props events c)))).
  { induction events as [|e events IH] using rev_ind; [exact Hselected|].
    rewrite after_snoc. now apply editor_kept_selected. }
  destruct Hafter as [editor Heditor]. exists editor.
  split; [exact Heditor|].
  rewrite callsOf_onSave. unfold savedCalls. rewrite Heditor.
  apply elem_of_app. right. apply elem_of_app. left. apply list_elem_of_here.
Qed.

End Preferences.

(** ** The committer name against the rule of the spec *)

(** C3: with the rule of the spec for [gitAuthorNameIsValid], the name-change
    handler stores the name entered and, in the same update, the message its
    validity calls for: a non-empty name that consists only of disallowed
    characters, or only of whitespace, gives the fixed message; any other
    non-empty name gives null, whatever the message was before. *)
Theorem onCommitterNameChanged_validity
    {ExternalEditor Shell ApplicationTheme StrategyKind : Type}
    (disallowed whitespace : ascii -> bool) (emptyNameIsValid : bool)
    (name : string)
    (c : @Component ExternalEditor Shell ApplicationTheme StrategyKind) :
  let gitAuthorNameIsValid :=
    IdentifierRules.gitAuthorNameIsValid disallowed whitespace emptyNameIsValid in
  let s' := state (exec (onCommitterNameChanged gitAuthorNameIsValid name) c) in
  committerName s' = name
  /\ (name <> "" ->
      IdentifierRules.consistsOnlyOf disallowed name = true
      \/ IdentifierRules.consistsOnlyOf whitespace name = true ->
      disallowedCharactersMessage s' =
        Some "Name is invalid, it consists only of disallowed characters.")
  /\ (name <> "" ->
      IdentifierRules.consistsOnlyOf disallowed name = false ->
      IdentifierRules.consistsOnlyOf whitespace name = false ->
      disallowedCharactersMessage s' = None).
Proof.
  cbn zeta.
  destruct (onCommitterNameChanged_state
              (IdentifierRules.gitAuthorNameIsValid disallowed whitespace emptyNameIsValid)
              name c) as (Hname & Hmessage & _).
  rewrite Hname, Hmessage. split; [reflexivity|].
  destruct name as [|x rest]; [split; intros H; now contradiction H|].
  unfold IdentifierRules.gitAuthorNameIsValid. split.
  - intros _ [-> | ->]; rewrite ?orb_true_r; reflexivity.
  - intros _ -> ->. reflexivity.
Qed.

(** ** A dialog on a host *)

Module Example.

(** A host that names its editors, shells, themes and strategies by strings. *)
Definition Component : Type := @Component string string string string.

Definition jane : Account.t :=
  {| Account.login := "jane";
     Account.emails :=
       [{| IAPIEmail.email := "jane@users.noreply.example.com"; IAPIEmail.verified := false |};
        {| IAPIEmail.email := "jane@example.com"; IAPIEmail.verified := true |}] |}.

(** Modelled from the spec: the preferred e-mail of an account is its first
    verified address, or else the first one listed. *)
Definition lookupPreferredEmail (account : Account.t) : option IAPIEmail.t :=
  match filter (fun e => IAPIEmail.verified e = true) (Account.emails account) with
  | found :: _ => Some found
  | [] => head (Account.emails account)
  end.

(** Angle brackets are disallowed characters; whitespace is what
    [Ascii.is_space] accepts. *)
Definition disallowed (c : ascii) : bool :=
  bool_decide (c = "<"%char \/ c = ">"%char).

Definition gitAuthorNameIsValid : string -> bool :=
  IdentifierRules.gitAuthorNameIsValid disallowed Ascii.is_space true.

Definition props : Props.t string string string string :=
  {| Props.dotComAccount := Some jane;
     Props.enterpriseAccount := None;
     Props.optOutOfUsageTracking := true;
     Props.initialSelectedTab := None;
     Props.confirmRepositoryRemoval := true;
     Props.confirmDiscardChanges := true;
     Props.confirmForcePush := true;
     Props.uncommittedChangesStrategyKind := "MoveToNewBranch";
     Props.selectedExternalEditor := Some "Visual Studio Code";
     Props.selectedShell := "Git Bash";
     Props.selectedTheme := "Light";
     Props.automaticallySwitchTheme := false |}.

(** A host with an empty global configuration. *)
Definition host : @World string string string string :=
  mkWorld ∅
    [FoundEditor.mk "Visual Studio Code" "/usr/bin/code"]
    [FoundShell.mk "Git Bash" "/usr/bin/bash"]
    None [].

Definition justOpened : Component := opened "AskForConfirmation" props host.

Definition session (events : list Event) : Component :=
  after lookupPreferredEmail gitAuthorNameIsValid props events justOpened.

(** The dialog after the load. *)
Definition mounted : Component := session [Loaded].

(** The load completes and the user opens the Advanced tab. *)
Definition advancedAfterLoad : list (@Event string string string string) :=
  [Loaded; TabClicked PreferencesTab.Advanced].

(** The user opens a tab while the load is still under way. *)
Definition advancedBeforeLoad : list (@Event string string string string) :=
  [TabClicked PreferencesTab.Advanced].

Definition integrationsBeforeLoad : list (@Event string string string string) :=
  [TabClicked PreferencesTab.Integrations].

(** The user has typed a name of angle brackets on the Git tab. *)
Definition invalidlyNamed : Component :=
  session [Loaded; TabClicked PreferencesTab.Git; CommitterNameChanged "<>"].

(** The user has named a merge tool and given no command. *)
Definition toolNamed : Component :=
  session [Loaded; TabClicked PreferencesTab.Integrations; MergeToolNameChanged "kdiff3"].

End Example.

(** *** The theorems at the example *)

Import Example.

Lemma onSave_merge_tool_keys_witness :
  ("merge.tool" ∈ keysWritten (callsOf onSave toolNamed))
  /\ (mergeToolCommandKey "kdiff3" ∉ keysWritten (callsOf onSave toolNamed))
  /\ ("merge.tool" ∉ keysWritten (callsOf onSave mounted)).
Proof.
  destruct (onSave_merge_tool_keys toolNamed) as (Hname & Hcommand & _).
  destruct (onSave_merge_tool_keys mounted) as (_ & _ & Hnone).
  split; [|split].
  - apply Hname. eexists. split; [reflexivity | discriminate].
  - rewrite Hcommand. intros (t & command & Ht & _ & _ & Hc & _).
    vm_compute in Ht. injection Ht as <-. discriminate Hc.
  - apply Hnone. left. reflexivity.
Defined.

Lemma renderFooter_by_tab_witness :
  renderFooter (state mounted) = Returned None
  /\ renderFooter (state invalidlyNamed) =
       Returned (Some {| okButtonText := "Save"; okButtonDisabled := true |}).
Proof.
  split.
  - apply (renderFooter_by_tab (state mounted)). left. reflexivity.
  - destruct (proj2 (renderFooter_by_tab (state invalidlyNamed))) as (footer & -> & Htext & Hdisabled).
    + right. left. reflexivity.
    + destruct footer as [text disabled]. cbn in Htext, Hdisabled. subst text.
      rewrite (proj2 Hdisabled); [reflexivity | discriminate].
Defined.

Lemma onCommitterNameChanged_validity_witness :
  disallowedCharactersMessage (state (exec (onCommitterNameChanged gitAuthorNameIsValid "<>") mounted))
    = Some "Name is invalid, it consists only of disallowed characters."
  /\ disallowedCharactersMessage (state (exec (onCommitterNameChanged gitAuthorNameIsValid "   ") mounted))
     = Some "Name is invalid, it consists only of disallowed characters."
  /\ disallowedCharactersMessage
       (state (exec (onCommitterNameChanged gitAuthorNameIsValid "Jane Doe") invalidlyNamed))
     = None.
Proof.
  split; [|split].
  - apply (onCommitterNameChanged_validity disallowed Ascii.is_space true "<>" mounted);
      [discriminate | left; reflexivity].
  - apply (onCommitterNameChanged_validity disallowed Ascii.is_space true "   " mounted);
      [discriminate | right; reflexivity].
  - apply (onCommitterNameChanged_validity disallowed Ascii.is_space true "Jane Doe"
             invalidlyNamed); [discriminate | reflexivity | reflexivity].
Defined.

Lemma componentWillMount_seeds_identity_witness :
  (Props.dotComAccount props = Some jane
   \/ (Props.dotComAccount props = None /\ Props.enterpriseAccount props = Some jane))
  /\ truthy (globalConfig (world justOpened) !! "user.name") = false
  /\ truthy (globalConfig (world justOpened) !! "user.email") = false
  /\ committerName (state mounted) = "jane"
  /\ committerEmail (state mounted) = "jane@example.com".
Proof.
  assert (Haccount : Props.dotComAccount props = Some jane
                     \/ (Props.dotComAccount props = None
                         /\ Props.enterpriseAccount props = Some jane))
    by (left; reflexivity).
  destruct (componentWillMount_seeds_identity lookupPreferredEmail props justOpened)
    as (Hseeds & _).
  destruct (Hseeds jane Haccount) as (Hname & Hemail).
  split; [exact Haccount|]. split; [reflexivity|]. split; [reflexivity|].
  split; [apply Hname | apply Hemail]; reflexivity.
Defined.

Lemma selections_follow_props_witness :
  unedited ConfirmForcePushSelection advancedAfterLoad
  /\ confirmForcePush (state (session advancedAfterLoad)) = true
  /\ unedited ShellSelection integrationsBeforeLoad
  /\ selectedShell (state (session integrationsBeforeLoad)) = "Git Bash".
Proof.
  assert (Hflag : unedited ConfirmForcePushSelection advancedAfterLoad)
    by (repeat constructor).
  assert (Hshell : unedited ShellSelection integrationsBeforeLoad)
    by (repeat constructor).
  split; [exact Hflag|]. split; [|split; [exact Hshell|]].
  - apply (selections_follow_props "AskForConfirmation" lookupPreferredEmail
             gitAuthorNameIsValid props host advancedAfterLoad).
    exact Hflag.
  - apply (selections_follow_props "AskForConfirmation" lookupPreferredEmail
             gitAuthorNameIsValid props host integrationsBeforeLoad).
    exact Hshell.
Defined.

Lemma assertNever_reached_only_outside_enumeration_witness :
  (5 ∉ PreferencesTab.all)
  /\ render false props (state (session [Loaded; TabClicked 5])) = Threw (UnknownTabIndex 5)
  /\ (PreferencesTab.Git ∈ PreferencesTab.all)
  /\ exists dialog,
       render false props (state (session [Loaded; TabClicked PreferencesTab.Git]))
       = Returned dialog.
Proof.
  assert (Hout : 5 ∉ PreferencesTab.all).
  { rewrite tab_in_enumeration. intros [H | [H | [H | [H | H]]]]; discriminate H. }
  assert (Hin : PreferencesTab.Git ∈ PreferencesTab.all).
  { rewrite tab_in_enumeration. right. right. left. reflexivity. }
  split; [exact Hout|]. split; [|split; [exact Hin|]].
  - apply (assertNever_reached_only_outside_enumeration false props
             (state (session [Loaded; TabClicked 5]))).
    exact Hout.
  - apply (assertNever_reached_only_outside_enumeration false props
             (state (session [Loaded; TabClicked PreferencesTab.Git]))).
    exact Hin.
Defined.

Lemma onSave_writes_invalid_name_witness :
  disallowedCharactersMessage (state invalidlyNamed)
    = Some "Name is invalid, it consists only of disallowed characters."
  /\ globalConfig (world (exec onSave invalidlyNamed)) !! "user.name" = Some "<>"
  /\ last (callsOf onSave invalidlyNamed) = Some OnDismissed.
Proof.
  assert (Hmessage : disallowedCharactersMessage (state invalidlyNamed)
                     = Some "Name is invalid, it consists only of disallowed characters.")
    by reflexivity.
  destruct (onSave_writes_invalid_name invalidlyNamed _ Hmessage)
    as (_ & Hstored & Hlast & _).
  split; [exact Hmessage|]. split; [exact Hstored | exact Hlast].
Defined.

Lemma command_without_name_is_not_saved_witness :
  mergeTool (state mounted) = None
  /\ configWrites (callsOf onSave (exec (onMergeToolCommandChanged "kdiff3 $LOCAL") mounted))
     = [("user.name", "jane"); ("user.email", "jane@example.com")]
  /\ mergeTool (state (exec (onMergeToolNameChanged "kdiff3")
                         (exec (onMergeToolCommandChanged "kdiff3 $LOCAL") mounted)))
     = Some {| IMergeTool.name := "kdiff3"; IMergeTool.command := Some "kdiff3 $LOCAL" |}.
Proof.
  assert (Hnone : mergeTool (state mounted) = None) by reflexivity.
  destruct (command_without_name_is_not_saved mounted "kdiff3 $LOCAL" Hnone)
    as (_ & Hwrites & _ & _ & Hname).
  split; [exact Hnone|]. split; [exact Hwrites | exact (Hname "kdiff3")].
Defined.

(** *** Where the code departs from the spec *)

(** C5: with an editor selected and the load done, [onSave] writes the
    confirm-discard-changes flag after the external editor and the shell, so
    the behavior flags do not all come before the tools. *)
Lemma onSave_stated_order_counterexample :
  callsOf onSave mounted =
    [SetGlobalConfigValue "user.name" "jane";
     SetGlobalConfigValue "user.email" "jane@example.com";
     SetStatsOptOut true false;
     SetConfirmRepoRemovalSetting true;
     SetConfirmForcePushSetting true;
     SetExternalEditor "Visual Studio Code";
     SetShell "Git Bash";
     SetConfirmDiscardChangesSetting true;
     SetUncommittedChangesStrategyKindSetting "MoveToNewBranch";
     OnDismissed]
  /\ inStatedOrder (callsOf onSave mounted) = false.
Proof.
  split; reflexivity.
Qed.

(** C6: the props ask for the confirmations and opt out of telemetry; in the
    dialog as constructed, and still after a tab click that comes before the
    load completes, the user has edited nothing and the state has all of
    them [false], and the default strategy. *)
Lemma selections_before_load_counterexample :
  unedited ConfirmForcePushSelection advancedBeforeLoad
  /\ Props.confirmForcePush props = true
  /\ confirmForcePush (state justOpened) = false
  /\ confirmForcePush (state (session advancedBeforeLoad)) = false
  /\ Props.optOutOfUsageTracking props = true
  /\ optOutOfUsageTracking (state justOpened) = false
  /\ Props.uncommittedChangesStrategyKind props = "MoveToNewBranch"
  /\ uncommittedChangesStrategyKind (state justOpened) = "AskForConfirmation".
Proof.
  split; [repeat constructor | repeat split].
Qed.

(** ** Further properties at a host *)

Module Scenario.

(** A host whose configuration names a committer and a merge tool. *)
Definition meldHost : @World string string string string :=
  mkWorld (<["merge.tool" := "meld"]> (<["user.name" := "Jane Doe"]> ∅))
    [FoundEditor.mk "Visual Studio Code" "/usr/bin/code"; FoundEditor.mk "Atom" "/usr/bin/atom"]
    [FoundShell.mk "Git Bash" "/usr/bin/bash"]
    (Some {| IMergeTool.name := "meld"; IMergeTool.command := None |})
    [].

(** Props that open the dialog on the Git tab, with no account signed in. *)
Definition gitProps : Props.t string string string string :=
  {| Props.dotComAccount := None;
     Props.enterpriseAccount := None;
     Props.optOutOfUsageTracking := false;
     Props.initialSelectedTab := Some PreferencesTab.Git;
     Props.confirmRepositoryRemoval := true;
     Props.confirmDiscardChanges := true;
     Props.confirmForcePush := true;
     Props.uncommittedChangesStrategyKind := "AskForConfirmation";
     Props.selectedExternalEditor := None;
     Props.selectedShell := "Git Bash";
     Props.selectedTheme := "Dark";
     Props.automaticallySwitchTheme := true |}.

(** Props that ask for a tab the enumeration does not have. *)
Definition strayProps : Props.t string string string string :=
  {| Props.dotComAccount := None;
     Props.enterpriseAccount := None;
     Props.optOutOfUsageTracking := false;
     Props.initialSelectedTab := Some 9;
     Props.confirmRepositoryRemoval := true;
     Props.confirmDiscardChanges := true;
     Props.confirmForcePush := true;
     Props.uncommittedChangesStrategyKind := "AskForConfirmation";
     Props.selectedExternalEditor := None;
     Props.selectedShell := "Git Bash";
     Props.selectedTheme := "Dark";
     Props.automaticallySwitchTheme := true |}.

Definition sessionOn
    (props : Props.t string string string string)
    (w : @World string string string string)
    (events : list (@Event string string string string)) : Example.Component :=
  after Example.lookupPreferredEmail Example.gitAuthorNameIsValid props events
    (opened "AskForConfirmation" props w).

(** The user has emptied the name of the merge tool. *)
Definition nameCleared : Example.Component :=
  sessionOn Example.props meldHost [Loaded; MergeToolNameChanged ""].

(** The user has named a merge tool and its command. *)
Definition toolConfigured : Example.Component :=
  sessionOn Example.props Example.host
    [Loaded; MergeToolNameChanged "kdiff3"; MergeToolCommandChanged "kdiff3 $LOCAL"].

(** The user has typed an identity; then the same with the name emptied. *)
Definition identityTyped : Example.Component :=
  sessionOn Example.props Example.host
    [Loaded; CommitterNameChanged "Jane Doe"; CommitterEmailChanged "jane@work.example.com"].

Definition nameEmptied : Example.Component :=
  sessionOn Example.props Example.host [Loaded; CommitterNameChanged ""].

(** The user picks another editor, then saves. *)
Definition editorReplaced : list (@Event string string string string) :=
  [Loaded; SelectedEditorChanged "Atom"; Save].

Definition appearanceOpened : list (@Event string string string string) :=
  [Loaded; AutomaticallySwitchThemeChanged false; TabClicked PreferencesTab.Appearance].

End Scenario.

Import Scenario.

Lemma onSave_stores_identity_and_tool_witness :
  mergeTool (state toolConfigured)
    = Some {| IMergeTool.name := "kdiff3"; IMergeTool.command := Some "kdiff3 $LOCAL" |}
  /\ globalConfig (world (exec onSave toolConfigured)) !! "merge.tool" = Some "kdiff3"
  /\ globalConfig (world (exec onSave toolConfigured)) !! "mergetool.kdiff3.cmd"
     = Some "kdiff3 $LOCAL".
Proof.
  assert (Htool : mergeTool (state toolConfigured)
                  = Some {| IMergeTool.name := "kdiff3";
                            IMergeTool.command := Some "kdiff3 $LOCAL" |})
    by reflexivity.
  destruct (onSave_stores_identity_and_tool toolConfigured) as (_ & _ & Hstored).
  destruct (Hstored _ Htool) as (Hname & Hcommand); [discriminate|].
  split; [exact Htool|]. split; [exact Hname|].
  apply (Hcommand "kdiff3 $LOCAL"); [reflexivity | discriminate].
Defined.

Lemma onSave_keeps_other_keys_witness :
  ("merge.tool" ∉ keysWritten (callsOf onSave nameCleared))
  /\ globalConfig (world (exec onSave nameCleared)) !! "merge.tool" = Some "meld".
Proof.
  assert (Hkey : "merge.tool" ∉ keysWritten (callsOf onSave nameCleared)).
  { rewrite callsOf_onSave, keysWritten_savedCalls. cbn.
    rewrite !elem_of_cons, elem_of_nil. intros [H | [H | H]]; discriminate H || exact H. }
  split; [exact Hkey|].
  rewrite (onSave_keeps_other_keys nameCleared "merge.tool" Hkey). reflexivity.
Defined.

Lemma saved_identity_is_loaded_back_witness :
  committerName
    (state (exec (componentWillMount Example.lookupPreferredEmail gitProps)
              (opened "AskForConfirmation" gitProps (world (exec onSave identityTyped)))))
    = "Jane Doe"
  /\ committerName
       (state (exec (componentWillMount Example.lookupPreferredEmail Example.props)
                 (opened "AskForConfirmation" Example.props
                    (world (exec onSave nameEmptied)))))
     = "jane".
Proof.
  destruct (saved_identity_is_loaded_back "AskForConfirmation" Example.lookupPreferredEmail
              identityTyped gitProps) as (Hkept & _).
  destruct (saved_identity_is_loaded_back "AskForConfirmation" Example.lookupPreferredEmail
              nameEmptied Example.props) as (_ & _ & Hseeded & _).
  split.
  - apply Hkept. discriminate.
  - apply Hseeded. reflexivity.
Defined.


Lemma appearance_reads_props_witness :
  selectedIndex (state (sessionOn gitProps meldHost appearanceOpened))
    = PreferencesTab.Appearance
  /\ automaticallySwitchTheme (state (sessionOn gitProps meldHost appearanceOpened)) = false
  /\ renderActiveTab gitProps (state (sessionOn gitProps meldHost appearanceOpened))
     = Returned (AppearanceView "Dark" true).
Proof.
  destruct (appearance_reads_props "AskForConfirmation" Example.lookupPreferredEmail
              Example.gitAuthorNameIsValid gitProps meldHost appearanceOpened)
    as (Hfield & Hview).
  split; [reflexivity|]. split; [exact Hfield|].
  apply Hview. reflexivity.
Defined.

Lemma constructed_dialog_renders_witness :
  (PreferencesTab.Git ∈ PreferencesTab.all)
  /\ (exists dialog, render false gitProps (constructor "AskForConfirmation" gitProps)
                      = Returned dialog)
  /\ (9 ∉ PreferencesTab.all)
  /\ render false strayProps (constructor "AskForConfirmation" strayProps)
     = Threw (UnknownTabIndex 9).
Proof.
  assert (Hin : PreferencesTab.Git ∈ PreferencesTab.all).
  { rewrite tab_in_enumeration. right. right. left. reflexivity. }
  assert (Hout : 9 ∉ PreferencesTab.all).
  { rewrite tab_in_enumeration. intros [H | [H | [H | [H | H]]]]; discriminate H. }
  destruct (constructed_dialog_renders "AskForConfirmation" false gitProps) as (_ & Hgit).
  destruct (constructed_dialog_renders "AskForConfirmation" false strayProps) as (_ & Hstray).
  destruct (Hgit PreferencesTab.Git eq_refl) as (_ & Hrenders & _).
  destruct (Hstray 9 eq_refl) as (_ & _ & Hthrows).
  split; [exact Hin|]. split; [exact (Hrenders Hin)|].
  split; [exact Hout | exact (Hthrows Hout)].
Defined.

Lemma editor_stays_selected_witness :
  is_Some (selectedExternalEditor (state Example.justOpened))
  /\ selectedExternalEditor
       (state (after Example.lookupPreferredEmail Example.gitAuthorNameIsValid
                 Example.props editorReplaced Example.justOpened))
     = Some "Atom"
  /\ (SetExternalEditor "Atom" ∈
        callsOf onSave
          (after Example.lookupPreferredEmail Example.gitAuthorNameIsValid
             Example.props editorReplaced Example.justOpened)).
Proof.
  assert (Hselected : is_Some (selectedExternalEditor (state Example.justOpened)))
    by (eexists; reflexivity).
  destruct (editor_stays_selected Example.lookupPreferredEmail Example.gitAuthorNameIsValid
              Example.props editorReplaced Example.justOpened Hselected)
    as (editor & Heditor & Hcall).
  assert (Hatom : editor = "Atom").
  { vm_compute in Heditor. now injection Heditor as <-. }
  subst editor.
  split; [exact Hselected|]. split; [exact Heditor | exact Hcall].
Defined.
